(** * Response-time evaluation of a support ticket (cli.py)

    A shallow embedding of [cli.py]: the [Ticket], [User], [Response],
    [ResponseTime] and [Evaulation] dataclasses, the pairing generator
    [Evaluate.__iter__] and the report row [Evaulation.as_record], together
    with the part of Python's [datetime] arithmetic they rely on.

    Python features are modelled as follows.
    - An exception is a value of [exn]; a call that may raise returns a
      [result].
    - A generator is the list of values it yields followed by the way it
      stops ([gen]): a consumer sees every yielded value before it sees the
      exception, exactly like the [for] loop of [cli].
    - [None] is [None] of an [option]; attribute access on it raises
      [AttributeError].
    - A [dict] with string keys is a [gmap string _]. *)

From Stdlib Require Import ZArith Lia Ascii.
From stdpp Require Import base option list strings gmap pretty sorting.

#[local] Open Scope Z_scope.

(** ** Exceptions, results and generators *)

Module Py.

Inductive exn : Type :=
  | AttributeError
  | AssertionError
  | OverflowError.

Inductive result (A : Type) : Type :=
  | Ok (a : A)
  | Raise (e : exn).
Arguments Ok {A} a.
Arguments Raise {A} e.

#[export] Instance result_ret : MRet result := λ A a, Ok a.
#[export] Instance result_bind : MBind result := λ A B f r,
  match r with
  | Ok a => f a
  | Raise e => Raise e
  end.

(** How a generator stops: its body returns ([StopIteration] for the
    consumer) or an exception escapes from it. *)
Inductive outcome : Type :=
  | Exhausted
  | Raised (e : exn).

Definition gen (A : Type) : Type := (list A * outcome)%type.

Definition yielded {A} (g : gen A) : list A := g.1.
Definition stopped {A} (g : gen A) : outcome := g.2.

(** [yield x] followed by the rest of the generator. *)
Definition yield_then {A} (x : A) (g : gen A) : gen A := (x :: g.1, g.2).

(** [obj.attr] where [obj] may be [None]. *)
Definition getattr {A B} (attr : A → B) (obj : option A) : result B :=
  match obj with
  | Some o => Ok (attr o)
  | None => Raise AttributeError
  end.

(** [range(n)] for an integer [n]: empty when [n <= 0]. *)
Definition range (n : Z) : list Z := seqZ 0 n.

(** A Python value as far as this program distinguishes them. *)
Inductive value : Type :=
  | Int (n : Z)
  | Str (s : string).

End Py.
Import Py.

(** ** The [datetime] module

    Naive date-times only: [Response.__post_init__] parses the creation
    stamp with its trailing [Z] removed, so no value carries a time zone.
    A calendar date is represented by its proleptic Gregorian ordinal
    ([date.toordinal()], day 1 is 0001-01-01), which is what CPython's own
    date arithmetic goes through. *)

Module datetime.

Definition MAXORDINAL : Z := 3652059.

Definition date : Type := Z.

Record datetime : Type := mk_datetime {
  ordinal : date;
  hour : Z;
  minute : Z;
  second : Z;
  microsecond : Z
}.

(** The class invariant of [datetime.datetime]. *)
Definition valid (dt : datetime) : Prop :=
  1 ≤ ordinal dt ≤ MAXORDINAL ∧ 0 ≤ hour dt < 24 ∧ 0 ≤ minute dt < 60 ∧
  0 ≤ second dt < 60 ∧ 0 ≤ microsecond dt < 1000000.

(** [timedelta]: normalised so that [0 <= seconds < 86400] and
    [0 <= microseconds < 1000000]; only [days] carries the sign. *)
Record timedelta : Type := mk_timedelta {
  days : Z;
  seconds : Z;
  microseconds : Z
}.

(** [timedelta(days=d, seconds=s, microseconds=us)] for integer arguments:
    the carries of [timedelta.__new__]. *)
Definition timedelta_new (d s us : Z) : timedelta :=
  let s := s + us `div` 1000000 in
  let us := us `mod` 1000000 in
  let d := d + s `div` 86400 in
  let s := s `mod` 86400 in
  mk_timedelta d s us.

Definition timedelta_add (a b : timedelta) : timedelta :=
  timedelta_new (days a + days b) (seconds a + seconds b)
                (microseconds a + microseconds b).

Definition total_microseconds (td : timedelta) : Z :=
  (days td * 86400 + seconds td) * 1000000 + microseconds td.

Definition second_of_day (dt : datetime) : Z :=
  second dt + minute dt * 60 + hour dt * 3600.

(** Microseconds since the start of day 0: the position of a date-time on
    the time line. *)
Definition timestamp (dt : datetime) : Z :=
  (ordinal dt * 86400 + second_of_day dt) * 1000000 + microsecond dt.

(** [self - other] for two naive date-times ([datetime.__sub__]). *)
Definition datetime_sub (self other : datetime) : timedelta :=
  timedelta_new (ordinal self - ordinal other)
                (second_of_day self - second_of_day other)
                (microsecond self - microsecond other).

(** [self + other] ([datetime.__add__]): raises [OverflowError] when the
    resulting day is outside years 1..9999. *)
Definition datetime_add (self : datetime) (other : timedelta) : result datetime :=
  let delta := timedelta_add
                 (timedelta_new (ordinal self) (second_of_day self) (microsecond self))
                 other in
  let hour := seconds delta `div` 3600 in
  let rem := seconds delta `mod` 3600 in
  let minute := rem `div` 60 in
  let second := rem `mod` 60 in
  if bool_decide (0 < days delta ≤ MAXORDINAL)
  then Ok (mk_datetime (days delta) hour minute second (microseconds delta))
  else Raise OverflowError.

(** [dt.weekday()]: Monday is 0, Sunday is 6. *)
Definition weekday (dt : datetime) : Z := (ordinal dt + 6) `mod` 7.

(** [dt.date()]. *)
Definition date_of (dt : datetime) : date := ordinal dt.

(** Comparison of naive date-times: lexicographic on the fields. *)
Definition cmp (a b : datetime) : comparison :=
  match ordinal a ?= ordinal b with
  | Eq => match hour a ?= hour b with
          | Eq => match minute a ?= minute b with
                  | Eq => match second a ?= second b with
                          | Eq => microsecond a ?= microsecond b
                          | c => c
                          end
                  | c => c
                  end
          | c => c
          end
  | c => c
  end.

Definition ltb (a b : datetime) : bool :=
  match cmp a b with Lt => true | _ => false end.
Definition leb (a b : datetime) : bool :=
  match cmp a b with Gt => false | _ => true end.

End datetime.
Import datetime.

(** ** The dataclasses of cli.py *)

Record User : Type := mk_User {
  name : string;
  email : string;
  role : string;
  time_zone : string;
  locale : string;
  organization_id : Z
}.

Definition ROLES_AGENT : list string := ["agent"; "admin"].

(** [User.is_agent]: [self.role in self.ROLES_AGENT]. *)
Definition is_agent (u : User) : bool := bool_decide (role u ∈ ROLES_AGENT).

(** A [Response] after [__post_init__]: [responded_at] has been parsed
    from [created_at] and [user] copied from the comment's author. *)
Record Response : Type := mk_Response {
  user : User;
  responded_at : datetime;
  created_at : string
}.

Record ResponseTime : Type := mk_ResponseTime {
  asked_at : datetime;
  answered_at : datetime;
  duration : timedelta
}.

(** [ResponseTime(asked_at=.., answered_at=..)]: the generated [__init__]
    followed by [__post_init__]. *)
Definition ResponseTime_init (asked answered : datetime) : ResponseTime :=
  mk_ResponseTime asked answered (datetime_sub answered asked).

(** The loop body of [ResponseTime.weekends] over the values of [i]. *)
Fixpoint weekends_loop (asked : datetime) (indices : list Z) : gen date :=
  match indices with
  | [] => ([], Exhausted)
  | i :: rest =>
      match datetime_add asked (timedelta_new i 0 0) with
      | Raise e => ([], Raised e)
      | Ok dt =>
          let is_a_weekend := bool_decide (5 ≤ weekday dt) in
          if is_a_weekend
          then yield_then (date_of dt) (weekends_loop asked rest)
          else weekends_loop asked rest
      end
  end.

Definition weekends (self : ResponseTime) : gen date :=
  weekends_loop (asked_at self) (range (days (duration self) + 1)).

Record Evaulation : Type := mk_Evaulation {
  response : Response;
  time_taken : option ResponseTime
}.

(** ** The pairer: [Evaluate.__iter__] *)

(** The two local variables that survive an iteration of the loop. *)
Record pairer_state : Type := mk_state {
  prev : option Response;
  last_customer_response : option Response
}.

Definition initial_state : pairer_state := mk_state None None.

(** One iteration of the [while] loop for the Response [current] obtained
    from [next(self.responses)]: either an exception, or the yielded
    [Evaulation] and the variables at the end of the iteration. *)
Definition step (st : pairer_state) (current : Response)
  : result (Evaulation * pairer_state) :=
  (* current.user.is_agent() and not prev.user.is_agent() *)
  answers ← (if is_agent (user current)
             then prev_user ← getattr user (prev st);
                  mret (negb (is_agent prev_user))
             else mret false);
  if answers : bool then
    asked ← getattr responded_at (last_customer_response st);
    let resp_time := ResponseTime_init asked (responded_at current) in
    mret (mk_Evaulation current (Some resp_time),
          mk_state (Some current) (last_customer_response st))
  else if negb (is_agent (user current)) then
    (* not prev or prev.user.is_agent() *)
    let starts_run := match prev st with
                      | None => true
                      | Some p => is_agent (user p)
                      end in
    mret (mk_Evaulation current None,
          mk_state (Some current)
                   (if starts_run then Some current else last_customer_response st))
  else
    mret (mk_Evaulation current None,
          mk_state (Some current) (last_customer_response st)).

(** The loop from a given state over the Responses still to come. *)
Fixpoint iter_from (st : pairer_state) (responses : list Response) : gen Evaulation :=
  match responses with
  | [] => ([], Exhausted)
  | current :: rest =>
      match step st current with
      | Raise e => ([], Raised e)
      | Ok (evaluation, st') => yield_then evaluation (iter_from st' rest)
      end
  end.

(** [iter(Evaluate(responses))]. *)
Definition Evaluate_iter (responses : list Response) : gen Evaulation :=
  iter_from initial_state responses.

(** ** Calendar and string forms ([datetime], [str])

    The conversions between ordinals and (year, month, day) follow
    CPython's [_ymd2ord] and [_ord2ymd]; they are only used to write dates
    down and to render them. *)

Module calendar.

Definition is_leap (year : Z) : bool :=
  bool_decide (year `mod` 4 = 0) &&
  (negb (bool_decide (year `mod` 100 = 0)) || bool_decide (year `mod` 400 = 0)).

Definition days_before_year (year : Z) : Z :=
  let y := year - 1 in
  y * 365 + y `div` 4 - y `div` 100 + y `div` 400.

Definition DAYS_IN_MONTH : list Z :=
  [-1; 31; 28; 31; 30; 31; 30; 31; 31; 30; 31; 30; 31].
Definition DAYS_BEFORE_MONTH : list Z :=
  [-1; 0; 31; 59; 90; 120; 151; 181; 212; 243; 273; 304; 334].

Definition table (t : list Z) (month : Z) : Z := default 0 (t !! Z.to_nat month).

Definition days_before_month (year month : Z) : Z :=
  table DAYS_BEFORE_MONTH month +
  (if bool_decide (2 < month) && is_leap year then 1 else 0).

Definition ymd2ord (year month day : Z) : date :=
  days_before_year year + days_before_month year month + day.

Definition DI400Y : Z := 146097.
Definition DI100Y : Z := 36524.
Definition DI4Y : Z := 1461.

Definition ord2ymd (n : date) : Z * Z * Z :=
  let n := n - 1 in
  let n400 := n `div` DI400Y in
  let n := n `mod` DI400Y in
  let year := n400 * 400 + 1 in
  let n100 := n `div` DI100Y in
  let n := n `mod` DI100Y in
  let n4 := n `div` DI4Y in
  let n := n `mod` DI4Y in
  let n1 := n `div` 365 in
  let n := n `mod` 365 in
  let year := year + n100 * 100 + n4 * 4 + n1 in
  if bool_decide (n1 = 4) || bool_decide (n100 = 4) then (year - 1, 12, 31)
  else
    let leapyear := bool_decide (n1 = 3) &&
                    (negb (bool_decide (n4 = 24)) || bool_decide (n100 = 3)) in
    let month := Z.shiftr (n + 50) 5 in
    let preceding := table DAYS_BEFORE_MONTH month +
                     (if bool_decide (2 < month) && leapyear then 1 else 0) in
    let '(month, preceding) :=
      if bool_decide (n < preceding)
      then (month - 1,
            preceding - (table DAYS_IN_MONTH (month - 1) +
                         (if bool_decide (month - 1 = 2) && leapyear then 1 else 0)))
      else (month, preceding) in
    (year, month, n - preceding + 1).

(** [datetime(year, month, day, hour, minute)]. *)
Definition at_ (year month day hour minute : Z) : datetime :=
  mk_datetime (ymd2ord year month day) hour minute 0 0.

(** ["%0<width>d" % n] for [0 <= n]. *)
Definition zero_padded (width : nat) (n : Z) : string :=
  let digits := pretty n in
  String.string_of_list_ascii
    (replicate (width - String.length digits) "0"%char) +:+ digits.

(** [str(d)] for a date: [isoformat()]. *)
Definition str_date (d : date) : string :=
  let '(y, m, dd) := ord2ymd d in
  zero_padded 4 y +:+ "-" +:+ zero_padded 2 m +:+ "-" +:+ zero_padded 2 dd.

(** [str(dt)] for a naive date-time: [isoformat(sep=' ')]. *)
Definition str_datetime (dt : datetime) : string :=
  str_date (ordinal dt) +:+ " " +:+ zero_padded 2 (hour dt) +:+ ":" +:+
  zero_padded 2 (minute dt) +:+ ":" +:+ zero_padded 2 (second dt) +:+
  (if bool_decide (microsecond dt = 0) then ""
   else "." +:+ zero_padded 6 (microsecond dt)).

(** [str(td)]: [timedelta.__str__]. *)
Definition str_timedelta (td : timedelta) : string :=
  let mm := seconds td `div` 60 in
  let ss := seconds td `mod` 60 in
  let hh := mm `div` 60 in
  let mm := mm `mod` 60 in
  let s := pretty hh +:+ ":" +:+ zero_padded 2 mm +:+ ":" +:+ zero_padded 2 ss in
  let s := if bool_decide (days td = 0) then s
           else pretty (days td) +:+ " day" +:+
                (if bool_decide (Z.abs (days td) = 1) then "" else "s") +:+
                ", " +:+ s in
  if bool_decide (microseconds td = 0) then s
  else s +:+ "." +:+ zero_padded 6 (microseconds td).

End calendar.
Import calendar.

(** [ResponseTime.formula]. *)
Definition formula (self : ResponseTime) : string :=
  str_datetime (answered_at self) +:+ " - " +:+ str_datetime (asked_at self) +:+
  " = " +:+ str_timedelta (duration self).

(** ** The report row: [Evaulation.as_record] *)

Definition FIELDS : list string :=
  ["email"; "user type"; "commented at"; "formula"; "weekends"; "response time"].

(** [d.update({k1: v1, ...})]. *)
Definition dict_update (d : gmap string string) (items : list (string * string))
  : gmap string string :=
  foldl (λ d kv, <[kv.1 := kv.2]> d) d items.

(** [[f(x) for x in g]]: the whole generator is consumed; an exception
    escaping from it escapes from the comprehension. *)
Definition list_comprehension {A B} (f : A → B) (g : gen A) : result (list B) :=
  match stopped g with
  | Exhausted => Ok (f <$> yielded g)
  | Raised e => Raise e
  end.

(** [sep.join(items)]. *)
Fixpoint join (sep : string) (items : list string) : string :=
  match items with
  | [] => ""
  | [s] => s
  | s :: rest => s +:+ sep +:+ join sep rest
  end.

Definition as_record (self : Evaulation) : result (gmap string string) :=
  let record : gmap string string := ∅ in
  let record :=
    dict_update record
      [("email", email (user (response self)));
       ("user type", if is_agent (user (response self)) then "agent" else "customer");
       ("commented at", str_datetime (responded_at (response self)))] in
  match time_taken self with
  | Some rt =>
      ds ← list_comprehension str_date (weekends rt);
      mret (dict_update record
              [("formula", formula rt);
               ("weekends", join "," ds);
               ("response time", str_timedelta (duration rt))])
  | None => mret record
  end.

(** ** [Ticket.from_url] *)

Module url.

(** [urllib.parse.urlparse(url).path], for the URL shape
    [scheme://netloc/path;params?query#fragment] in which every part is
    optional. Left out: the clean-up of control characters and the
    validation of a bracketed host, neither of which changes the path of a
    URL that has none of them. *)

Definition is_alpha (c : ascii) : bool :=
  let n := nat_of_ascii c in
  (bool_decide (65 ≤ n ≤ 90) || bool_decide (97 ≤ n ≤ 122))%nat.
Definition is_digit (c : ascii) : bool :=
  let n := nat_of_ascii c in bool_decide (48 ≤ n ≤ 57)%nat.
Definition is_scheme_char (c : ascii) : bool :=
  is_alpha c || is_digit c || bool_decide (c ∈ ["+"; "-"; "."]%char).
Definition lower (c : ascii) : ascii :=
  let n := nat_of_ascii c in
  if bool_decide (65 ≤ n ≤ 90)%nat then ascii_of_nat (n + 32) else c.

(** The characters before the first one satisfying [stop], and the rest
    starting at that character ([None] when there is none). *)
Fixpoint break (stop : ascii → bool) (s : list ascii)
  : list ascii * option (list ascii) :=
  match s with
  | [] => ([], None)
  | c :: rest =>
      if stop c then ([], Some s)
      else let '(before, after) := break stop rest in (c :: before, after)
  end.

Definition is_char (c : ascii) : ascii → bool := λ x, bool_decide (x = c).

(** The scheme (lowercased) and what follows its colon. *)
Definition split_scheme (u : list ascii) : list ascii * list ascii :=
  match break (is_char ":") u with
  | (c :: scheme, Some (_ :: rest)) =>
      if is_alpha c && forallb is_scheme_char (c :: scheme)
      then (lower <$> (c :: scheme), rest)
      else ([], u)
  | _ => ([], u)
  end.

Definition split_netloc (u : list ascii) : list ascii :=
  match u with
  | "/"%char :: "/"%char :: rest =>
      match break (λ c, bool_decide (c ∈ ["/"; "?"; "#"]%char)) rest with
      | (_, Some after) => after
      | (_, None) => []
      end
  | _ => u
  end.

Definition uses_params : list string :=
  [""; "ftp"; "hdl"; "prospero"; "http"; "imap"; "https"; "shttp"; "rtsp";
   "rtspu"; "sip"; "sips"; "mms"; "sftp"; "tel"].

(** [_splitparams]: the parameters start at the first [;] of the last
    path segment. *)
Fixpoint strip_params (p : list ascii) : list ascii :=
  match p with
  | [] => []
  | c :: rest =>
      if bool_decide (c = ";"%char) && negb (bool_decide ("/"%char ∈ rest))
      then []
      else c :: strip_params rest
  end.

Definition urlparse_path (u : string) : string :=
  let '(scheme, rest) := split_scheme (String.list_ascii_of_string u) in
  let rest := split_netloc rest in
  let rest := (break (is_char "#") rest).1 in
  let rest := (break (is_char "?") rest).1 in
  let rest := if bool_decide (String.string_of_list_ascii scheme ∈ uses_params)
              then strip_params rest else rest in
  String.string_of_list_ascii rest.

End url.

(** [re.compile("^/agent/tickets/(?P<id>\d+)$").search(path)]: the text of
    the group [id] when the pattern matches. [\d+] is greedy and [$] matches
    at the end of the string and just before a newline that ends it. Digits
    are the ASCII ones (a Python [str] pattern also accepts the decimal digits
    of other scripts, which a [string] of bytes does not represent). *)
Module regex.

Fixpoint strip_prefix (prefix s : list ascii) : option (list ascii) :=
  match prefix, s with
  | [], _ => Some s
  | p :: prefix', c :: s' => if bool_decide (p = c) then strip_prefix prefix' s' else None
  | _ :: _, [] => None
  end.

Definition newline : ascii := ascii_of_nat 10.

Definition PATH_EXPRESSION_search (path : string) : option string :=
  match strip_prefix (String.list_ascii_of_string "/agent/tickets/")
                     (String.list_ascii_of_string path) with
  | None => None
  | Some rest =>
      let '(digits, after) := url.break (λ c, negb (url.is_digit c)) rest in
      match digits, after with
      | [], _ => None
      | _ :: _, None => Some (String.string_of_list_ascii digits)
      | _ :: _, Some [c] =>
          if bool_decide (c = newline)
          then Some (String.string_of_list_ascii digits) else None
      | _ :: _, Some _ => None
      end
  end.

End regex.

(** The dataclass declares [id: int]; the generated [__init__] stores
    whatever it is given. *)
Record Ticket : Type := mk_Ticket { id : value }.

(** [Ticket.from_url]: the class is called with the group dictionary of
    the match as keyword arguments, and that dictionary maps the group name
    [id] to the matched text. *)
Definition from_url (u : string) : result Ticket :=
  let path := url.urlparse_path u in
  match regex.PATH_EXPRESSION_search path with
  | None => Raise AssertionError
  | Some matched_id => Ok (mk_Ticket (Str matched_id))
  end.

(** * Vocabulary of the statements *)

Definition from_agent (r : Response) : Prop := is_agent (user r) = true.
Definition from_customer (r : Response) : Prop := is_agent (user r) = false.

(** The assumption written at the top of [Evaluate.__init__]: the first
    Response is by a customer. The empty stream has no first Response. *)
Definition starts_with_customer (responses : list Response) : Prop :=
  match responses with
  | [] => True
  | first :: _ => from_customer first
  end.

(** Position [j] holds an agent Response and position [j - 1] a customer
    Response. *)
Definition customer_then_agent (responses : list Response) (j : nat) : Prop :=
  ∃ j' c a, j = S j' ∧ responses !! j' = Some c ∧ from_customer c ∧
            responses !! j = Some a ∧ from_agent a.

(** An emitted Evaluation carries a measurement. *)
Definition measured (e : Evaulation) : Prop := is_Some (time_taken e).

(** Saturday is 5 and Sunday is 6. *)
Definition is_weekend (d : date) : Prop := 5 ≤ (d + 6) `mod` 7.

#[global] Instance is_weekend_dec d : Decision (is_weekend d).
Proof. unfold is_weekend. apply _. Defined.

(** The weekend dates of the specification: the calendar dates from
    [first] to [last], both included, that fall on a Saturday or a Sunday,
    in ascending order. *)
Definition spec_weekend_dates (first last : date) : list date :=
  filter is_weekend (seqZ first (last - first + 1)).

(** The time of day, in microseconds since midnight. *)
Definition time_of_day (dt : datetime) : Z :=
  second_of_day dt * 1000000 + microsecond dt.

(** A [ResponseTime] as the program builds it: two date-times and the
    [duration] that [__post_init__] derives from them. *)
Definition built (rt : ResponseTime) : Prop :=
  valid (asked_at rt) ∧ valid (answered_at rt) ∧
  duration rt = datetime_sub (answered_at rt) (asked_at rt).

(** The variables of the loop once the Responses [responses] have been
    consumed, starting from [st]; an exception if one of them raises. *)
Fixpoint state_after (st : pairer_state) (responses : list Response)
  : result pairer_state :=
  match responses with
  | [] => Ok st
  | current :: rest =>
      match step st current with
      | Raise e => Raise e
      | Ok (_, st') => state_after st' rest
      end
  end.

(** Position [k] opens the run of consecutive customer Responses that
    reaches position [i]: every Response from [k] to [i] is from a customer
    and the run cannot be extended to the left. *)
Definition run_start (responses : list Response) (i k : nat) : Prop :=
  (k ≤ i)%nat ∧
  (∀ j, (k ≤ j ≤ i)%nat → ∃ x, responses !! j = Some x ∧ from_customer x) ∧
  (k = 0%nat ∨ ∃ p, responses !! (k - 1)%nat = Some p ∧ from_agent p).

(** A state in which a previous Response exists and, when it is from a
    customer, a reference customer Response is recorded. *)
Definition settled (st : pairer_state) : Prop :=
  ∃ p, prev st = Some p ∧
       (from_customer p → is_Some (last_customer_response st)).

(** The Evaluation yielded at position [j] carries a [ResponseTime] that
    runs from [asked] to [answered]. *)
Definition measured_between (responses : list Response) (j : nat)
    (asked answered : datetime) : Prop :=
  ∃ e rt, yielded (Evaluate_iter responses) !! j = Some e ∧
          time_taken e = Some rt ∧
          asked_at rt = asked ∧ answered_at rt = answered.

Definition measured_from (responses : list Response) (j : nat)
    (asked : datetime) : Prop :=
  ∃ answered, measured_between responses j asked answered.

(** The keys that every row has, and those that come with a measurement. *)
Definition row_keys : list string := ["email"; "user type"; "commented at"].
Definition measurement_keys : list string :=
  ["formula"; "weekends"; "response time"].

(** ** Sample conversations *)

Module sample.

Definition customer : User :=
  mk_User "Casey" "casey@example.com" "end-user" "Asia/Tokyo" "en-US" 7.
Definition agent : User :=
  mk_User "Avery" "avery@example.com" "agent" "Asia/Tokyo" "en-US" 1.

(** The creation stamp of a comment: ISO 8601 with the [Z] suffix. *)
Definition stamp (dt : datetime) : string :=
  str_date (ordinal dt) +:+ "T" +:+ zero_padded 2 (hour dt) +:+ ":" +:+
  zero_padded 2 (minute dt) +:+ ":" +:+ zero_padded 2 (second dt) +:+ "Z".

(** The [Response] built from a public comment of [u] created at [dt]. *)
Definition comment (u : User) (dt : datetime) : Response :=
  mk_Response u dt (stamp dt).

(** Monday 2021-01-04. *)
Definition customer_0900 : Response := comment customer (at_ 2021 1 4 9 0).
Definition customer_0905 : Response := comment customer (at_ 2021 1 4 9 5).
Definition agent_0900 : Response := comment agent (at_ 2021 1 4 9 0).
Definition agent_0910 : Response := comment agent (at_ 2021 1 4 9 10).
Definition agent_1000 : Response := comment agent (at_ 2021 1 4 10 0).

(** Friday 2021-01-01 to Monday 2021-01-04. *)
Definition friday_1700 : datetime := at_ 2021 1 1 17 0.
Definition monday_0900 : datetime := at_ 2021 1 4 9 0.

End sample.

(** * The input and output side of cli.py

    What surrounds the pairer: the credentials, the comments of the ticket,
    the Responses built from them, the rows of the report and the command
    [cli] itself. Three things are outside the program and are taken as
    given: [datetime.fromisoformat], the Zendesk client, and the file
    system, of which only the files that [cli] writes are kept. *)

Module io.

(** The exceptions of this side, beside those of the core. *)
Inductive error : Type :=
  | Core (e : exn)
  | KeyError (key : string)
  | ValueError
  | ClientError.

Inductive res (A : Type) : Type :=
  | Return (a : A)
  | Throw (e : error).
Arguments Return {A} a.
Arguments Throw {A} e.

#[export] Instance res_ret : MRet res := λ A a, Return a.
#[export] Instance res_bind : MBind res := λ A B f r,
  match r with
  | Return a => f a
  | Throw e => Throw e
  end.

(** How an iteration ends: the iterator is exhausted, or an exception
    escapes from it. *)
Inductive ending : Type :=
  | Done
  | Failed (e : error).

(** A generator: what it yields, then how it ends. *)
Definition stream (A : Type) : Type := (list A * ending)%type.

Definition of_outcome (o : outcome) : ending :=
  match o with
  | Exhausted => Done
  | Raised e => Failed (Core e)
  end.

End io.
Import io.

(** The objects of the Zendesk client that the program reads. *)
Module zenpy.

Record User : Type := mk_User {
  name : string;
  email : string;
  role : string;
  iana_time_zone : string;
  locale : string;
  organization_id : Z
}.

Record Comment : Type := mk_Comment {
  public : bool;
  author : User;
  created_at : string
}.

End zenpy.

(** [User.from_zenpyuser]. *)
Definition from_zenpyuser (u : zenpy.User) : User :=
  mk_User (zenpy.name u) (zenpy.email u) (zenpy.role u)
          (zenpy.iana_time_zone u) (zenpy.locale u) (zenpy.organization_id u).

(** [s[:-1]]: the string without its last character; the empty string
    stays empty. *)
Fixpoint chop_last (s : string) : string :=
  match s with
  | EmptyString => EmptyString
  | String c rest =>
      match rest with
      | EmptyString => EmptyString
      | String _ _ => String c (chop_last rest)
      end
  end.

(** [os.environ[key]]. *)
Definition environ_getitem (environ : gmap string string) (key : string)
  : res string :=
  match environ !! key with
  | Some v => Return v
  | None => Throw (KeyError key)
  end.

(** [_zendesk_creds]: the items of the dictionary are evaluated in the
    order in which they are written. *)
Definition _zendesk_creds (environ : gmap string string)
  : res (gmap string string) :=
  email ← environ_getitem environ "ZENDESK_EMAIL";
  token ← environ_getitem environ "ZENDESK_TOKEN";
  subdomain ← environ_getitem environ "ZENDESK_SUBDOMAIN";
  mret (<["subdomain" := subdomain]>
          (<["token" := token]> (<["email" := email]> ∅))).

Section given.

(** [datetime.fromisoformat]: [None] stands for its [ValueError]. *)
Variable fromisoformat : string → option datetime.

(** [zd.tickets.comments(ticket=ticket_id)] for the client [zd] built from
    the credentials: the comments the client delivers for these credentials
    and this ticket, and the way its iteration ends. [_zendesk] keeps the one client it builds
    ([lru_cache]); a run asks for it once. *)
Variable tickets_comments :
  gmap string string → value → stream zenpy.Comment.

(** [Response(author=.., created_at=..)]: the generated [__init__] followed
    by [__post_init__], which parses the stamp without its last character
    and then copies the author. *)
Definition Response_init (author : zenpy.User) (created_at : string)
  : res Response :=
  match fromisoformat (chop_last created_at) with
  | None => Throw ValueError
  | Some responded_at =>
      Return (mk_Response (from_zenpyuser author) responded_at created_at)
  end.

(** [_zendesk_comments]: the credentials are read when the client is built,
    that is when the first comment is asked for. *)
Definition _zendesk_comments (environ : gmap string string) (ticket_id : value)
  : stream zenpy.Comment :=
  match _zendesk_creds environ with
  | Throw e => ([], Failed e)
  | Return creds => tickets_comments creds ticket_id
  end.

(** The loop of [responses] over the comments that the client delivers
    before its iteration ends with [stop]. *)
Fixpoint responses_loop (comments : list zenpy.Comment) (stop : ending)
  : stream Response :=
  match comments with
  | [] => ([], stop)
  | c :: rest =>
      (* only yield public comments (responses) *)
      if zenpy.public c then
        match Response_init (zenpy.author c) (zenpy.created_at c) with
        | Throw e => ([], Failed e)
        | Return r =>
            let '(rs, stop') := responses_loop rest stop in
            (r :: rs, stop')
        end
      else responses_loop rest stop
  end.

(** [responses(ticket_url)]. *)
Definition responses (environ : gmap string string) (ticket_url : value)
  : stream Response :=
  let '(comments, stop) := _zendesk_comments environ ticket_url in
  responses_loop comments stop.

(** [Evaluate.__iter__] when [next(self.responses)] may raise: the loop
    of [iter_from], in which an exception other than [StopIteration] that
    [next] raises escapes from the generator. *)
Fixpoint iter_over (st : pairer_state) (rs : list Response) (stop : ending)
  : stream Evaulation :=
  match rs with
  | [] => ([], stop)
  | current :: rest =>
      match step st current with
      | Raise e => ([], Failed (Core e))
      | Ok (evaluation, st') =>
          let '(evs, stop') := iter_over st' rest stop in
          (evaluation :: evs, stop')
      end
  end.

Definition Evaluate_over (responses : stream Response) : stream Evaulation :=
  iter_over initial_state responses.1 responses.2.

(** [csv.DictWriter] with [restval=''] and [extrasaction='raise']: the
    cells of a row in the order of [fieldnames]; a key that is no field
    name is a [ValueError]. A file is kept as its rows of cells. *)
Definition dict_to_list (fieldnames : list string) (rowdict : gmap string string)
  : res (list string) :=
  if bool_decide (dom rowdict ⊆@{gset string} list_to_set fieldnames)
  then Return ((λ key, default "" (rowdict !! key)) <$> fieldnames)
  else Throw ValueError.

(** [for e in evaluated: w.writerow(e.as_record())], after the rows
    [written]. *)
Fixpoint write_rows (evaluated : list Evaulation) (stop : ending)
    (written : list (list string)) : list (list string) * ending :=
  match evaluated with
  | [] => (written, stop)
  | e :: rest =>
      match as_record e with
      | Raise x => (written, Failed (Core x))
      | Ok record =>
          match dict_to_list FIELDS record with
          | Throw x => (written, Failed x)
          | Return row => write_rows rest stop (written ++ [row])
          end
      end
  end.

(** [os.path.splitext] of [posixpath]. *)
Fixpoint rfind_from (c : ascii) (s : list ascii) (i found : Z) : Z :=
  match s with
  | [] => found
  | x :: rest =>
      rfind_from c rest (i + 1) (if bool_decide (x = c) then i else found)
  end.

(** [s.rfind(c)]: the last position of [c], or -1. *)
Definition rfind (c : ascii) (s : list ascii) : Z := rfind_from c s 0 (-1).

Definition splitext (p : string) : string * string :=
  let s := String.list_ascii_of_string p in
  let sepIndex := rfind "/" s in
  let dotIndex := rfind "." s in
  if bool_decide (sepIndex < dotIndex) then
    (* skip all leading dots *)
    let leading := take (Z.to_nat (dotIndex - (sepIndex + 1)))
                        (drop (Z.to_nat (sepIndex + 1)) s) in
    if existsb (λ x, negb (bool_decide (x = "."%char))) leading
    then (String.string_of_list_ascii (take (Z.to_nat dotIndex) s),
          String.string_of_list_ascii (drop (Z.to_nat dotIndex) s))
    else (p, "")
  else (p, "").

(** What the run leaves behind: the messages printed and the files
    written, a file being the rows of the report. *)
Record world : Type := mk_world {
  stdout : list string;
  files : gmap string (list (list string))
}.

(** [click.secho(message, fg=..)]. *)
Definition secho (message : string) (w : world) : world :=
  mk_world (stdout w ++ [message]) (files w).

(** [f"{v}"]. *)
Definition format_value (v : value) : string :=
  match v with
  | Int n => pretty n
  | Str s => s
  end.

(** [output or default]: the default replaces [None] and the empty
    string. *)
Definition or_default (output : option string) (default : string) : string :=
  match output with
  | None => default
  | Some o => if bool_decide (o = "") then default else o
  end.

(** [cli]. The generators are lazy: nothing is asked of the client before
    the loop over [evaluated], which runs once the file is open and its
    header written; the file is closed, with what was written, also when an
    exception ends the loop. Opening the file is taken to succeed. *)
Definition cli (environ : gmap string string) (ticket_url : string)
    (output : option string) (w : world) : world * ending :=
  match from_url ticket_url with
  | Raise e => (w, Failed (Core e))
  | Ok ticket =>
      let w := secho ("Evaluating " +:+ ticket_url) w in
      let evaluated := Evaluate_over (responses environ (id ticket)) in
      let w := secho ("Evaluated " +:+ ticket_url) w in
      let out := or_default output (format_value (id ticket) +:+ ".csv") in
      if bool_decide ((splitext out).2 = ".csv") then
        let '(rows, stop) := write_rows evaluated.1 evaluated.2 [FIELDS] in
        let w := mk_world (stdout w) (<[out := rows]> (files w)) in
        match stop with
        | Done => (secho ("Generated evaluated output: " +:+ out) w, Done)
        | Failed e => (w, Failed e)
        end
      else (w, Failed (Core AssertionError))
  end.

(** A public comment whose stamp, without its last character, parses;
    nothing is asked of an internal note. *)
Definition parses (c : zenpy.Comment) : Prop :=
  zenpy.public c = true →
  is_Some (fromisoformat (chop_last (zenpy.created_at c))).

(** The Response [r] is the one built from the comment [c]. *)
Definition built_from (r : Response) (c : zenpy.Comment) : Prop :=
  user r = from_zenpyuser (zenpy.author c) ∧
  created_at r = zenpy.created_at c ∧
  fromisoformat (chop_last (zenpy.created_at c)) = Some (responded_at r).

End given.

(** The Responses are in ascending order of time: the first assumption
    written in [Evaluate.__init__]. *)
Definition ascending (responses : list Response) : Prop :=
  ∀ i j ri rj, (i ≤ j)%nat →
    responses !! i = Some ri → responses !! j = Some rj →
    leb (responded_at ri) (responded_at rj) = true.

(** A sample run: a ticket with a question, an internal note and an
    answer. *)
Module sample_run.

(** A parser that knows the two stamps of the ticket. *)
Definition fromisoformat (s : string) : option datetime :=
  if bool_decide (s = "2021-01-04T09:00:00") then Some (at_ 2021 1 4 9 0)
  else if bool_decide (s = "2021-01-04T10:00:00") then Some (at_ 2021 1 4 10 0)
  else None.

Definition casey : zenpy.User :=
  zenpy.mk_User "Casey" "casey@example.com" "end-user" "Asia/Tokyo" "en-US" 7.
Definition avery : zenpy.User :=
  zenpy.mk_User "Avery" "avery@example.com" "agent" "Asia/Tokyo" "en-US" 1.

Definition question : zenpy.Comment :=
  zenpy.mk_Comment true casey "2021-01-04T09:00:00Z".
Definition note : zenpy.Comment :=
  zenpy.mk_Comment false avery "not a stamp".
Definition answer : zenpy.Comment :=
  zenpy.mk_Comment true avery "2021-01-04T10:00:00Z".

Definition comments : list zenpy.Comment := [question; note; answer].

Definition tickets_comments (creds : gmap string string) (ticket_id : value)
  : stream zenpy.Comment :=
  (comments, Done).

Definition environ : gmap string string :=
  <["ZENDESK_SUBDOMAIN" := "foobar"]>
    (<["ZENDESK_TOKEN" := "secret"]>
       (<["ZENDESK_EMAIL" := "avery@example.com"]> ∅)).

Definition ticket_url : string := "https://foobar.zendesk.com/agent/tickets/123".

Definition nothing : world := mk_world [] ∅.

End sample_run.

(** * Properties *)

(** ** Date-time arithmetic *)

Section datetime_facts.

Implicit Types (a b dt : datetime) (td : timedelta).

Lemma timedelta_new_total d s us :
  total_microseconds (timedelta_new d s us) = (d * 86400 + s) * 1000000 + us.
Proof.
  unfold total_microseconds, timedelta_new; simpl.
  Z.div_mod_to_equations. lia.
Qed.

Lemma timedelta_new_normal d s us :
  0 ≤ seconds (timedelta_new d s us) < 86400 ∧
  0 ≤ microseconds (timedelta_new d s us) < 1000000.
Proof.
  unfold timedelta_new; simpl. Z.div_mod_to_equations. lia.
Qed.

(** A normalised [timedelta] is determined by its length. *)
Lemma timedelta_new_unique d s us d' s' us' :
  0 ≤ s' < 86400 → 0 ≤ us' < 1000000 →
  (d * 86400 + s) * 1000000 + us = (d' * 86400 + s') * 1000000 + us' →
  timedelta_new d s us = mk_timedelta d' s' us'.
Proof.
  intros Hs Hus Heq. unfold timedelta_new.
  assert (us `mod` 1000000 = us') as -> by (Z.div_mod_to_equations; lia).
  assert ((s + us `div` 1000000) `mod` 86400 = s') as ->
    by (Z.div_mod_to_equations; lia).
  f_equal. Z.div_mod_to_equations. lia.
Qed.

Lemma datetime_sub_total a b :
  total_microseconds (datetime_sub b a) = timestamp b - timestamp a.
Proof.
  unfold datetime_sub. rewrite timedelta_new_total. unfold timestamp. lia.
Qed.

Lemma second_of_day_range dt : valid dt → 0 ≤ second_of_day dt < 86400.
Proof. unfold valid, second_of_day. lia. Qed.

(** The whole days of a difference: the distance between the two calendar
    dates, less one when the time of day of [b] is earlier than that of
    [a]. *)
Lemma days_datetime_sub a b :
  valid a → valid b →
  days (datetime_sub b a) =
    ordinal b - ordinal a -
    (if bool_decide (second_of_day b * 1000000 + microsecond b <
                     second_of_day a * 1000000 + microsecond a)
     then 1 else 0).
Proof.
  intros Ha Hb.
  pose proof (second_of_day_range a Ha). pose proof (second_of_day_range b Hb).
  pose proof (datetime_sub_total a b) as Ht.
  pose proof (timedelta_new_normal (ordinal b - ordinal a)
                (second_of_day b - second_of_day a)
                (microsecond b - microsecond a)) as [Hs Hus].
  fold (datetime_sub b a) in Hs, Hus.
  unfold total_microseconds, timestamp in Ht.
  destruct Ha as (_ & _ & _ & _ & ?), Hb as (_ & _ & _ & _ & ?).
  case_bool_decide; lia.
Qed.

Lemma cmp_timestamp a b :
  valid a → valid b →
  cmp a b = (timestamp a ?= timestamp b).
Proof.
  intros (_ & ? & ? & ? & ?) (_ & ? & ? & ? & ?).
  unfold cmp, timestamp, second_of_day. symmetry.
  destruct (Z.compare_spec (ordinal a) (ordinal b));
    [destruct (Z.compare_spec (hour a) (hour b));
       [destruct (Z.compare_spec (minute a) (minute b));
          [destruct (Z.compare_spec (second a) (second b));
             [destruct (Z.compare_spec (microsecond a) (microsecond b))|..]|..]|..]|..];
    first [apply Z.compare_eq_iff | apply Z.compare_lt_iff | apply Z.compare_gt_iff];
    lia.
Qed.

Lemma ltb_timestamp a b :
  valid a → valid b → ltb a b = true ↔ timestamp a < timestamp b.
Proof.
  intros Ha Hb. unfold ltb. rewrite cmp_timestamp by done.
  destruct (Z.compare_spec (timestamp a) (timestamp b)); split; (done || lia).
Qed.

Lemma leb_timestamp a b :
  valid a → valid b → leb a b = true ↔ timestamp a ≤ timestamp b.
Proof.
  intros Ha Hb. unfold leb. rewrite cmp_timestamp by done.
  destruct (Z.compare_spec (timestamp a) (timestamp b)); split; (done || lia).
Qed.

(** Adding whole days keeps the time of day and moves the date, unless the
    date leaves the supported range. *)
Lemma datetime_add_days dt i :
  valid dt →
  datetime_add dt (timedelta_new i 0 0) =
    if bool_decide (0 < ordinal dt + i ≤ MAXORDINAL)
    then Ok (mk_datetime (ordinal dt + i) (hour dt) (minute dt) (second dt)
                         (microsecond dt))
    else Raise OverflowError.
Proof.
  intros Hv. pose proof (second_of_day_range dt Hv) as Hsod.
  destruct Hv as (Ho & Hh & Hm & Hs & Hus).
  unfold datetime_add, timedelta_add.
  rewrite (timedelta_new_unique i 0 0 i 0 0) by lia.
  rewrite (timedelta_new_unique (ordinal dt) (second_of_day dt) (microsecond dt)
             (ordinal dt) (second_of_day dt) (microsecond dt)) by lia.
  cbn [days seconds microseconds].
  rewrite (timedelta_new_unique (ordinal dt + i) (second_of_day dt + 0)
             (microsecond dt + 0)
             (ordinal dt + i) (second_of_day dt) (microsecond dt)) by lia.
  cbn [days seconds microseconds].
  assert (second_of_day dt `div` 3600 = hour dt) as ->
    by (unfold second_of_day; Z.div_mod_to_equations; lia).
  assert ((second_of_day dt `mod` 3600) `div` 60 = minute dt) as ->
    by (unfold second_of_day; Z.div_mod_to_equations; lia).
  assert ((second_of_day dt `mod` 3600) `mod` 60 = second dt) as ->
    by (unfold second_of_day; Z.div_mod_to_equations; lia).
  done.
Qed.

End datetime_facts.

(** ** [ResponseTime.weekends] *)

Section weekends_facts.

Implicit Types (asked answered : datetime).

Lemma weekends_loop_in_range asked (indices : list Z) :
  valid asked →
  Forall (λ i, 0 < ordinal asked + i ≤ MAXORDINAL) indices →
  weekends_loop asked indices =
    (filter is_weekend (Z.add (ordinal asked) <$> indices), Exhausted).
Proof.
  intros Hv. induction 1 as [|i rest Hi _ IH]; [done|].
  cbn [weekends_loop]. rewrite datetime_add_days, bool_decide_true by done.
  rewrite IH, fmap_cons, filter_cons.
  unfold weekday, date_of, yield_then; cbn [ordinal fst snd].
  unfold bool_decide. destruct (decide (is_weekend (ordinal asked + i))) as [Hw|Hw];
    unfold is_weekend in Hw; destruct (decide_rel Z.le _ _); done.
Qed.

(** The sequence that [weekends] yields, and that it never raises: the
    candidate days are the [duration.days + 1] dates from the date of
    [asked_at] on. *)
Lemma weekends_candidates asked answered :
  valid asked → valid answered →
  weekends (ResponseTime_init asked answered) =
    (filter is_weekend
       (seqZ (ordinal asked) (days (datetime_sub answered asked) + 1)),
     Exhausted).
Proof.
  intros Ha Hb. unfold weekends, ResponseTime_init, range; cbn [asked_at duration].
  rewrite weekends_loop_in_range; [by rewrite fmap_add_seqZ, Z.add_0_r|done|].
  apply Forall_forall. intros i [Hi0 Hi]%elem_of_seqZ.
  pose proof (days_datetime_sub asked answered Ha Hb) as Hd.
  destruct Ha as (? & _), Hb as (? & _). case_bool_decide; lia.
Qed.

(** When the time of day of [answered_at] is not earlier than that of
    [asked_at], the candidates are all the dates between the two. *)
Lemma weekends_without_wrap asked answered :
  valid asked → valid answered →
  time_of_day asked ≤ time_of_day answered →
  weekends (ResponseTime_init asked answered) =
    (spec_weekend_dates (date_of asked) (date_of answered), Exhausted).
Proof.
  intros Ha Hb Htod. rewrite weekends_candidates by done.
  rewrite days_datetime_sub by done. unfold time_of_day in Htod.
  rewrite bool_decide_false by lia. unfold spec_weekend_dates, date_of.
  do 3 f_equal. lia.
Qed.

(** When it is earlier, the date of [answered_at] is not a candidate. *)
Lemma weekends_with_wrap asked answered :
  valid asked → valid answered →
  time_of_day answered < time_of_day asked →
  weekends (ResponseTime_init asked answered) =
    (spec_weekend_dates (date_of asked) (date_of answered - 1), Exhausted).
Proof.
  intros Ha Hb Htod. rewrite weekends_candidates by done.
  rewrite days_datetime_sub by done. unfold time_of_day in Htod.
  rewrite bool_decide_true by lia. unfold spec_weekend_dates, date_of.
  do 3 f_equal. lia.
Qed.

End weekends_facts.

(** ** One iteration of the pairer *)

Section step_facts.

Implicit Types (st : pairer_state) (r c a p l : Response).

Lemma customer_or_agent r : {from_customer r} + {from_agent r}.
Proof. unfold from_customer, from_agent. destruct (is_agent (user r)); auto. Qed.

Lemma customer_not_agent r : from_customer r → from_agent r → False.
Proof. unfold from_customer, from_agent. congruence. Qed.

(** A customer Response after no Response or after an agent Response
    becomes the reference. *)
Lemma step_customer_opens st c :
  from_customer c →
  prev st = None ∨ (∃ p, prev st = Some p ∧ from_agent p) →
  step st c = Ok (mk_Evaulation c None, mk_state (Some c) (Some c)).
Proof.
  unfold from_customer, from_agent, step. intros -> [->|(p & -> & ->)]; done.
Qed.

(** A customer Response after a customer Response leaves the reference
    alone. *)
Lemma step_customer_continues st c p :
  from_customer c → prev st = Some p → from_customer p →
  step st c =
    Ok (mk_Evaulation c None, mk_state (Some c) (last_customer_response st)).
Proof. unfold from_customer, step. by intros -> -> ->. Qed.

(** An agent Response after a customer Response is measured from the
    reference. *)
Lemma step_agent_answers st a p l :
  from_agent a → prev st = Some p → from_customer p →
  last_customer_response st = Some l →
  step st a =
    Ok (mk_Evaulation a
          (Some (ResponseTime_init (responded_at l) (responded_at a))),
        mk_state (Some a) (Some l)).
Proof.
  unfold from_agent, from_customer, step. intros Ha Hp Hpc Hl.
  rewrite Ha, Hp; cbn. rewrite Hpc, Hl. reflexivity.
Qed.

Lemma step_agent_after_agent st a p :
  from_agent a → prev st = Some p → from_agent p →
  step st a =
    Ok (mk_Evaulation a None, mk_state (Some a) (last_customer_response st)).
Proof.
  unfold from_agent, step. intros Ha Hp Hpa.
  rewrite Ha, Hp; cbn. rewrite Hpa. reflexivity.
Qed.

(** An agent Response with no previous Response: [prev] is [None] and
    [prev.user] raises. *)
Lemma step_agent_first st a :
  from_agent a → prev st = None → step st a = Raise AttributeError.
Proof. unfold from_agent, step. by intros -> ->. Qed.

(** What an iteration that yields has done. *)
Lemma step_yields st r e st' :
  step st r = Ok (e, st') →
  response e = r ∧ prev st' = Some r ∧
  (measured e → from_agent r ∧ ∃ p, prev st = Some p ∧ from_customer p).
Proof.
  unfold step, measured, from_agent, from_customer.
  destruct (is_agent (user r)) eqn:Hr; cbn.
  - destruct (prev st) as [p|]; cbn; [|done].
    destruct (is_agent (user p)) eqn:Hp; cbn.
    + intros [= <- <-]; cbn. split_and!; [done..|]. by intros [? [=]].
    + destruct (last_customer_response st); cbn; [|done].
      intros [= <- <-]; cbn. split_and!; eauto.
  - intros [= <- <-]; cbn. split_and!; [done..|]. by intros [? [=]].
Qed.

Lemma step_settled st r :
  settled st → ∃ e st', step st r = Ok (e, st') ∧ settled st'.
Proof.
  intros (p & Hp & Hl).
  destruct (customer_or_agent r) as [Hr|Hr], (customer_or_agent p) as [Hpc|Hpa].
  - rewrite (step_customer_continues st r p) by done.
    do 2 eexists; split; [done|]. exists r; split; [done|]. cbn. auto.
  - rewrite step_customer_opens by eauto.
    do 2 eexists; split; [done|]. exists r; split; [done|]. cbn. eauto.
  - destruct (Hl Hpc) as [l Hlcr].
    rewrite (step_agent_answers st r p l) by done.
    do 2 eexists; split; [done|]. exists r; split; [done|]. cbn. eauto.
  - rewrite (step_agent_after_agent st r p) by done.
    do 2 eexists; split; [done|]. exists r; split; [done|].
    intros ?. by destruct (customer_not_agent r).
Qed.

End step_facts.

(** ** The pairer over a stream *)

Section stream_facts.

Implicit Types (st : pairer_state) (r c a p : Response).
Implicit Types (rs xs ys : list Response) (e : Evaulation).

Lemma state_after_app st xs ys :
  state_after st (xs ++ ys) = state_after st xs ≫= λ st1, state_after st1 ys.
Proof.
  revert st. induction xs as [|x xs IH]; intros st; cbn; [done|].
  destruct (step st x) as [[e st']|]; cbn; auto.
Qed.

(** The Evaluations of a stream are those of a prefix that raises no
    exception followed by those of the rest, run from the state the prefix
    leaves. *)
Lemma iter_from_app st xs ys st1 :
  state_after st xs = Ok st1 →
  iter_from st (xs ++ ys) =
    (yielded (iter_from st xs) ++ yielded (iter_from st1 ys),
     stopped (iter_from st1 ys)) ∧
  length (yielded (iter_from st xs)) = length xs.
Proof.
  revert st. induction xs as [|x xs IH]; intros st; cbn.
  - intros [= ->]. by destruct (iter_from st1 ys).
  - destruct (step st x) as [[e st']|]; [|done]. intros Hst.
    destruct (IH _ Hst) as [-> Hlen].
    unfold yield_then, yielded, stopped in *. cbn. by rewrite Hlen.
Qed.

(** The Evaluation at position [j] is the one the iteration on Response
    [j] yields, provided the Responses before it raise no exception. *)
Lemma yielded_at rs j r st e st' :
  state_after initial_state (take j rs) = Ok st →
  rs !! j = Some r →
  step st r = Ok (e, st') →
  yielded (Evaluate_iter rs) !! j = Some e.
Proof.
  intros Hst Hr Hstep. unfold Evaluate_iter.
  destruct (iter_from_app _ _ (r :: drop (S j) rs) _ Hst) as [Heq Hlen].
  rewrite take_drop_middle in Heq by done. rewrite Heq.
  cbn [iter_from]. rewrite Hstep. cbn.
  apply list_lookup_middle. rewrite Hlen, length_take.
  apply lookup_lt_Some in Hr. lia.
Qed.

Lemma iter_from_settled st rs :
  settled st →
  ∃ evs, iter_from st rs = (evs, Exhausted) ∧ response <$> evs = rs.
Proof.
  revert st. induction rs as [|r rs IH]; intros st Hst; cbn.
  - by exists [].
  - destruct (step_settled st r Hst) as (e & st' & Hstep & Hst').
    rewrite Hstep. destruct (IH st' Hst') as (evs & -> & Hevs).
    exists (e :: evs). split; [done|].
    apply step_yields in Hstep as (Hresp & _). cbn. by rewrite Hresp, Hevs.
Qed.

(** Every Evaluation that is yielded belongs to the Response at its
    position, and is measured only on a customer-to-agent step. *)
Lemma iter_from_yielded st rs j e :
  yielded (iter_from st rs) !! j = Some e →
  rs !! j = Some (response e) ∧
  (measured e →
   from_agent (response e) ∧
   ∃ c, from_customer c ∧
        match j with
        | O => prev st = Some c
        | S j' => rs !! j' = Some c
        end).
Proof.
  revert st j. induction rs as [|r rs IH]; intros st j; cbn; [done|].
  destruct (step st r) as [[e0 st']|] eqn:Hstep; [|done].
  apply step_yields in Hstep as (Hresp & Hprev & Hmeas).
  destruct j as [|j']; cbn.
  - intros [= <-]. split; [by rewrite Hresp|].
    intros Hm. destruct (Hmeas Hm) as (Ha & p & Hp & Hpc).
    rewrite Hresp. eauto.
  - intros He. destruct (IH _ _ He) as (Hr & Hm). split; [done|].
    intros Hme. destruct (Hm Hme) as (Ha & c & Hc & Hpos). split; [done|].
    exists c. split; [done|]. destruct j' as [|j'']; cbn; [congruence|done].
Qed.

(** After [i + 1] Responses of a stream that starts with a customer, the
    loop variables hold Response [i] and, if that one is from a customer,
    the Response that opens its run. *)
Lemma state_after_take rs i :
  starts_with_customer rs → (i < length rs)%nat →
  ∃ st, state_after initial_state (take (S i) rs) = Ok st ∧
        prev st = rs !! i ∧
        (∀ c, rs !! i = Some c → from_customer c →
              ∃ k c0, run_start rs i k ∧ rs !! k = Some c0 ∧
                      last_customer_response st = Some c0).
Proof.
  intros Hfirst. induction i as [|i IH]; intros Hlen.
  - destruct rs as [|r0 rs']; [cbn in Hlen; lia|]. cbn in Hfirst.
    cbn [take state_after].
    rewrite step_customer_opens by (auto || by left). cbn.
    eexists; split; [done|]. cbn. split; [done|].
    intros c [= <-] _. exists 0%nat, r0. split; [|done].
    split; [done|]. split; [|by left].
    intros j Hj. assert (j = 0%nat) as -> by lia. eauto.
  - destruct IH as (st & Hst & Hprev & Href); [lia|].
    destruct (lookup_lt_is_Some_2 rs (S i) Hlen) as [r Hr].
    destruct (lookup_lt_is_Some_2 rs i ltac:(lia)) as [p Hp].
    rewrite (take_S_r rs (S i) r Hr), state_after_app, Hst. cbn.
    rewrite Hp in Hprev.
    destruct (customer_or_agent r) as [Hrc|Hra],
             (customer_or_agent p) as [Hpc|Hpa].
    + destruct (Href p Hp Hpc) as (k & c0 & (Hk & Hrun & Hleft) & Hc0 & Hl).
      rewrite (step_customer_continues st r p) by done. cbn.
      eexists; split; [done|]. cbn. split; [done|].
      intros c Hc _. exists k, c0. split; [|done].
      split; [lia|]. split; [|done].
      intros j Hj. destruct (decide (j = S i)) as [->|]; [eauto|].
      apply Hrun. lia.
    + rewrite step_customer_opens by eauto. cbn.
      eexists; split; [done|]. cbn. split; [done|].
      intros c Hc _. rewrite Hr in Hc. injection Hc as <-.
      exists (S i), r. split; [|done].
      split; [done|]. split.
      * intros j Hj. assert (j = S i) as -> by lia. eauto.
      * right. exists p. by rewrite Nat.sub_1_r.
    + destruct (Href p Hp Hpc) as (k & c0 & _ & _ & Hl).
      rewrite (step_agent_answers st r p c0) by done. cbn.
      eexists; split; [done|]. cbn. split; [done|].
      intros c Hc Hcc. rewrite Hr in Hc. injection Hc as <-.
      by destruct (customer_not_agent r).
    + rewrite (step_agent_after_agent st r p) by done. cbn.
      eexists; split; [done|]. cbn. split; [done|].
      intros c Hc Hcc. rewrite Hr in Hc. injection Hc as <-.
      by destruct (customer_not_agent r).
Qed.

(** The run that reaches a position has one starting point. *)
Lemma run_start_unique rs i k k' :
  run_start rs i k → run_start rs i k' → k = k'.
Proof.
  assert (∀ k k', run_start rs i k → run_start rs i k' → (k' ≤ k)%nat) as Hle.
  { clear. intros k k' (Hk & Hrun & _) (Hk' & _ & Hleft).
    destruct Hleft as [->|(p & Hp & Hpa)]; [lia|].
    destruct (decide (k' ≤ k)%nat) as [|Hgt]; [done|].
    destruct (Hrun (k' - 1)%nat) as (x & Hx & Hxc); [lia|].
    rewrite Hp in Hx. injection Hx as <-.
    by destruct (customer_not_agent p). }
  intros H1 H2. pose proof (Hle _ _ H1 H2). pose proof (Hle _ _ H2 H1). lia.
Qed.

End stream_facts.

(** ** Claims about the pairer *)

Section pairer_claims.

Implicit Types (r c a p : Response) (rs : list Response) (e : Evaulation).

(** A stream whose first Response is from an agent: the first iteration
    evaluates [prev.user] with [prev = None], so the generator raises
    before it yields anything. *)
Lemma agent_first_raises a rs :
  from_agent a → Evaluate_iter (a :: rs) = ([], Raised AttributeError).
Proof.
  intros Ha. unfold Evaluate_iter. cbn [iter_from].
  by rewrite step_agent_first.
Qed.

(** On a stream that starts with a customer no iteration raises. *)
Lemma customer_first_exhausts rs :
  starts_with_customer rs →
  ∃ evs, Evaluate_iter rs = (evs, Exhausted) ∧ response <$> evs = rs.
Proof.
  destruct rs as [|r rs]; [by exists []|]. cbn. intros Hr.
  unfold Evaluate_iter. cbn [iter_from].
  rewrite step_customer_opens by (auto || by left).
  destruct (iter_from_settled (mk_state (Some r) (Some r)) rs) as (evs & -> & Hevs).
  { exists r. cbn. eauto. }
  exists (mk_Evaulation r None :: evs). cbn. by rewrite Hevs.
Qed.

(** C1 (as amended): for every input stream that is empty or starts with a
    customer Response, the pairer runs to the end of the stream and yields
    exactly one Evaluation per Response, the Evaluations being those of the
    Responses in the order of the input. *)
Theorem one_evaluation_per_response rs :
  starts_with_customer rs →
  ∃ evs, Evaluate_iter rs = (evs, Exhausted) ∧
         length evs = length rs ∧
         response <$> evs = rs.
Proof.
  intros Hrs. destruct (customer_first_exhausts rs Hrs) as (evs & Hrun & Hevs).
  exists evs. split_and!; [done| |done].
  by rewrite <-Hevs, length_fmap.
Qed.

Lemma one_evaluation_per_response_witness :
  starts_with_customer [sample.customer_0900; sample.agent_1000] ∧
  ∃ evs, Evaluate_iter [sample.customer_0900; sample.agent_1000] = (evs, Exhausted) ∧
         length evs = length [sample.customer_0900; sample.agent_1000] ∧
         response <$> evs = [sample.customer_0900; sample.agent_1000].
Proof.
  split; [reflexivity|]. apply one_evaluation_per_response. reflexivity.
Defined.

(** C1 as stated fails: the stream that consists of one agent Response
    yields no Evaluation at all. *)
Lemma one_evaluation_per_response_counterexample :
  Evaluate_iter [sample.agent_0900] = ([], Raised AttributeError) ∧
  length (yielded (Evaluate_iter [sample.agent_0900])) ≠
    length [sample.agent_0900].
Proof. rewrite agent_first_raises by reflexivity. split; [done|]. cbn. lia. Qed.

(** C2: scenario 4 of the specification. The stream is
    [agent@09:00, customer@09:05]; the specification expects two
    Evaluations without a ResponseTime, the generator yields none and
    raises [AttributeError] on the first Response. *)
Theorem agent_first_stream_raises :
  Evaluate_iter [sample.agent_0900; sample.customer_0905] =
    ([], Raised AttributeError).
Proof. apply agent_first_raises. reflexivity. Qed.

(** C3 (as amended): in a stream that starts with a customer Response, let
    positions [k..i] hold a run of consecutive customer Responses (a whole
    run: [k] is the first position of the stream or follows an agent
    Response) and position [i + 1] an agent Response. The Evaluation
    yielded for that agent Response carries a ResponseTime whose [asked_at]
    is the [responded_at] of the customer Response at [k], the first of the
    run. *)
Theorem reply_measured_from_first_of_run rs k i c a :
  starts_with_customer rs →
  run_start rs i k →
  rs !! k = Some c →
  rs !! S i = Some a → from_agent a →
  measured_from rs (S i) (responded_at c).
Proof.
  intros Hrs Hrun Hc Ha Haa.
  pose proof (lookup_lt_Some _ _ _ Ha) as Hlen.
  destruct Hrun as (Hk & Hall & Hleft).
  destruct (Hall i) as (x & Hx & Hxc); [lia|].
  destruct (state_after_take rs i Hrs) as (st & Hst & Hprev & Href); [lia|].
  destruct (Href x Hx Hxc) as (k' & c0 & Hrun' & Hc0 & Hl).
  assert (k' = k) as -> by (by eapply run_start_unique).
  rewrite Hc in Hc0. injection Hc0 as <-. rewrite Hx in Hprev.
  exists (responded_at a). do 2 eexists.
  split; [eapply yielded_at; [done..|]; by eapply step_agent_answers|done].
Qed.

Lemma reply_measured_from_first_of_run_witness :
  let rs := [sample.customer_0900; sample.customer_0905; sample.agent_0910] in
  starts_with_customer rs ∧ run_start rs 1 0 ∧
  rs !! 0%nat = Some sample.customer_0900 ∧
  rs !! 2%nat = Some sample.agent_0910 ∧ from_agent sample.agent_0910 ∧
  measured_from rs 2 (responded_at sample.customer_0900).
Proof.
  assert (run_start [sample.customer_0900; sample.customer_0905; sample.agent_0910] 1 0)
    as Hrun.
  { split; [lia|]. split; [|by left].
    intros j Hj. assert (j = 0 ∨ j = 1)%nat as [-> | ->] by lia; eexists; by split. }
  cbv zeta. split_and!; [reflexivity|exact Hrun|reflexivity..|].
  by apply (reply_measured_from_first_of_run _ 0 1 sample.customer_0900 sample.agent_0910).
Defined.

(** C3 as stated fails: in [agent@09:00, customer@09:05, agent@09:10] the
    customer Response is a run followed by an agent Response, and no
    Evaluation is yielded for that agent Response. *)
Lemma reply_measured_from_first_of_run_counterexample :
  let rs := [sample.agent_0900; sample.customer_0905; sample.agent_0910] in
  run_start rs 1 1 ∧ rs !! 1%nat = Some sample.customer_0905 ∧
  rs !! 2%nat = Some sample.agent_0910 ∧ from_agent sample.agent_0910 ∧
  ¬ measured_from rs 2 (responded_at sample.customer_0905).
Proof.
  cbv zeta. split_and!; [|reflexivity..|].
  - split; [lia|]. split.
    + intros j Hj. assert (j = 1)%nat as -> by lia. eexists; by split.
    + right. eexists; by split.
  - intros (answered & e & rt & He & _).
    rewrite agent_first_raises in He by reflexivity. done.
Qed.

(** C4 (as amended): in a stream that starts with a customer Response, let
    position [i] hold a customer Response and position [i + 1] an agent
    Response. The Evaluation yielded for position [i + 1] carries a
    ResponseTime whose [answered_at] is the [responded_at] of Response
    [i + 1] and whose [asked_at] is the [responded_at] of the Response that
    opens the run of consecutive customer Responses ending at [i]; that
    Response is Response [i] itself when [i] is the first position or
    follows an agent Response. *)
Theorem customer_then_agent_measured rs i c a :
  starts_with_customer rs →
  rs !! i = Some c → from_customer c →
  rs !! S i = Some a → from_agent a →
  ∃ k c0, run_start rs i k ∧ rs !! k = Some c0 ∧
          measured_between rs (S i) (responded_at c0) (responded_at a) ∧
          (i = 0%nat ∨ (∃ p, rs !! (i - 1)%nat = Some p ∧ from_agent p) →
           k = i ∧ c0 = c).
Proof.
  intros Hrs Hc Hcc Ha Haa.
  pose proof (lookup_lt_Some _ _ _ Hc) as Hlen.
  destruct (state_after_take rs i Hrs Hlen) as (st & Hst & Hprev & Href).
  destruct (Href c Hc Hcc) as (k & c0 & Hrun & Hc0 & Hl).
  rewrite Hc in Hprev.
  exists k, c0. split_and!; [done..| |].
  - do 2 eexists.
    split; [eapply yielded_at; [done..|]; by eapply step_agent_answers|done].
  - intros Hopens.
    assert (run_start rs i i) as Hii.
    { split; [done|]. split.
      - intros j Hj. assert (j = i) as -> by lia. eauto.
      - destruct Hopens as [->|?]; [by left|by right]. }
    assert (k = i) as -> by (by eapply run_start_unique).
    split; [done|]. congruence.
Qed.

Lemma customer_then_agent_measured_witness :
  let rs := [sample.customer_0900; sample.customer_0905; sample.agent_0910] in
  starts_with_customer rs ∧
  rs !! 1%nat = Some sample.customer_0905 ∧ from_customer sample.customer_0905 ∧
  rs !! 2%nat = Some sample.agent_0910 ∧ from_agent sample.agent_0910 ∧
  ∃ k c0, run_start rs 1 k ∧ rs !! k = Some c0 ∧
          measured_between rs 2 (responded_at c0) (responded_at sample.agent_0910) ∧
          (1 = 0 ∨ (∃ p, rs !! (1 - 1) = Some p ∧ from_agent p) →
           k = 1 ∧ c0 = sample.customer_0905)%nat.
Proof.
  cbv zeta. split_and!; [reflexivity..|].
  by apply (customer_then_agent_measured _ 1 sample.customer_0905 sample.agent_0910).
Defined.

(** C4 as stated fails: in scenario 3 of the specification,
    [customer@09:00, customer@09:05, agent@09:10], Response 1 is from a
    customer and Response 2 from an agent, and the ResponseTime of
    Response 2 is asked at 09:00, not at the 09:05 of Response 1. *)
Lemma customer_then_agent_measured_counterexample :
  let rs := [sample.customer_0900; sample.customer_0905; sample.agent_0910] in
  rs !! 1%nat = Some sample.customer_0905 ∧ from_customer sample.customer_0905 ∧
  rs !! 2%nat = Some sample.agent_0910 ∧ from_agent sample.agent_0910 ∧
  ¬ measured_between rs 2 (responded_at sample.customer_0905)
                          (responded_at sample.agent_0910).
Proof.
  cbv zeta. split_and!; [reflexivity..|].
  intros (e & rt & He & Hrt & Hasked & _).
  vm_compute in He. injection He as <-.
  cbn in Hrt. injection Hrt as <-.
  vm_compute in Hasked. discriminate.
Qed.

(** C5 (as amended): on every input stream, an Evaluation that the pairer
    yields carries a ResponseTime only if its Response is from an agent and
    the Response just before it is from a customer; in particular an
    Evaluation yielded for the second of two consecutive agent Responses
    carries none. On every input stream that starts with a customer
    Response, each Response gets its Evaluation, which carries a
    ResponseTime exactly when the Response is from an agent and the one
    before it from a customer; so each customer-to-agent gap yields exactly
    one measurement, on the first agent reply, and none on the agent replies
    that follow it. *)
Theorem measured_only_on_customer_to_agent_step rs :
  (∀ j e, yielded (Evaluate_iter rs) !! j = Some e →
          measured e → customer_then_agent rs j) ∧
  (∀ j p a e, rs !! j = Some p → from_agent p →
              rs !! S j = Some a → from_agent a →
              yielded (Evaluate_iter rs) !! S j = Some e →
              time_taken e = None) ∧
  (starts_with_customer rs →
   (∀ j r, rs !! j = Some r →
           ∃ e, yielded (Evaluate_iter rs) !! j = Some e ∧ response e = r ∧
                (measured e ↔ customer_then_agent rs j)) ∧
   (∀ j m, customer_then_agent rs j →
           (∀ t, (t ≤ m)%nat → ∃ a, rs !! (j + t)%nat = Some a ∧ from_agent a) →
           (∃ e, yielded (Evaluate_iter rs) !! j = Some e ∧ measured e) ∧
           (∀ t e, (0 < t ≤ m)%nat →
                   yielded (Evaluate_iter rs) !! (j + t)%nat = Some e →
                   ¬ measured e))).
Proof.
  assert (∀ j e, yielded (Evaluate_iter rs) !! j = Some e →
                 measured e → customer_then_agent rs j) as Honly.
  { intros j e He Hm.
    destruct (iter_from_yielded _ _ _ _ He) as (Hr & Hwhen).
    destruct (Hwhen Hm) as (Ha & c & Hc & Hpos).
    destruct j as [|j']; [done|]. exists j', c, (response e). by split_and!. }
  assert (∀ j p, rs !! j = Some p → from_agent p →
                 ¬ customer_then_agent rs (S j)) as Hagent.
  { intros j p Hp Hpa (j' & c & a & [= <-] & Hc & Hcc & _).
    rewrite Hp in Hc. injection Hc as <-. by destruct (customer_not_agent p). }
  split; [done|]. split.
  { intros j p a e Hp Hpa _ _ He.
    destruct (time_taken e) as [rt|] eqn:Hrt; [|done].
    destruct (Hagent j p Hp Hpa). apply (Honly _ e He).
    unfold measured. rewrite Hrt. eauto. }
  intros Hrs.
  assert (∀ j r, rs !! j = Some r →
                 ∃ e, yielded (Evaluate_iter rs) !! j = Some e ∧ response e = r ∧
                      (measured e ↔ customer_then_agent rs j)) as Hiff.
  { intros j r Hr.
    destruct (customer_first_exhausts rs Hrs) as (evs & Hrun & Hevs).
    assert (is_Some (evs !! j)) as [e He].
    { apply lookup_lt_is_Some. rewrite <-(length_fmap response), Hevs.
      by eapply lookup_lt_Some. }
    assert (response e = r) as Hresp.
    { apply (f_equal (λ l, l !! j)) in Hevs. rewrite list_lookup_fmap, He, Hr in Hevs.
      by injection Hevs. }
    assert (yielded (Evaluate_iter rs) !! j = Some e) as Hy by (by rewrite Hrun).
    exists e. split_and!; [done..|]. split; [by apply Honly|].
    intros (j' & c & a & -> & Hc & Hcc & Ha & Haa).
    pose proof (lookup_lt_Some _ _ _ Hc) as Hlen.
    destruct (state_after_take rs j' Hrs Hlen) as (st & Hst & Hprev & Href).
    destruct (Href c Hc Hcc) as (k & c0 & _ & _ & Hl). rewrite Hc in Hprev.
    pose proof (yielded_at rs (S j') a st _ _ Hst Ha
                  (step_agent_answers st a c c0 Haa Hprev Hcc Hl)) as Hy'.
    rewrite Hy in Hy'. injection Hy' as ->. unfold measured. cbn. eauto. }
  split; [done|].
  intros j m Hgap Hagents. split.
  - destruct Hgap as (j' & c & a & -> & Hc & Hcc & Ha & Haa).
    destruct (Hiff _ _ Ha) as (e & He & _ & Hm). exists e. split; [done|].
    apply Hm. exists j', c, a. by split_and!.
  - intros t e Ht He Hme.
    destruct (Hagents (t - 1)%nat) as (p & Hp & Hpa); [lia|].
    apply (Hagent (j + (t - 1))%nat p Hp Hpa).
    replace (S (j + (t - 1)))%nat with (j + t)%nat by lia.
    by apply (Honly _ e).
Qed.

(** C5 as stated fails: [agent@09:00, customer@09:05, agent@09:10] has a
    customer-to-agent gap at positions 1 and 2, and no Evaluation with a
    ResponseTime is yielded for it. *)
Lemma measured_only_on_customer_to_agent_step_counterexample :
  let rs := [sample.agent_0900; sample.customer_0905; sample.agent_0910] in
  customer_then_agent rs 2 ∧
  ¬ ∃ j e, yielded (Evaluate_iter rs) !! j = Some e ∧ measured e.
Proof.
  cbv zeta. split.
  - exists 1%nat, sample.customer_0905, sample.agent_0910. by split_and!.
  - intros (j & e & He & _).
    rewrite agent_first_raises in He by reflexivity. done.
Qed.

End pairer_claims.

(** ** Claims about [ResponseTime] *)

Section response_time_claims.

Implicit Types (asked answered : datetime) (c a : Response).

(** C6: a customer asks on Friday 2021-01-01 at 23:00 and the agent answers
    on Saturday 2021-01-02 at 01:00. The answer is not earlier than the
    question and Saturday lies between the two dates, yet [weekends] yields
    nothing: [duration.days] is 0, so Friday is the only candidate. *)
Theorem weekends_misses_date_of_answer :
  let asked := at_ 2021 1 1 23 0 in
  let answered := at_ 2021 1 2 1 0 in
  leb asked answered = true ∧
  weekends (ResponseTime_init asked answered) = ([], Exhausted) ∧
  spec_weekend_dates (date_of asked) (date_of answered) = [ymd2ord 2021 1 2].
Proof. cbv zeta. split_and!; vm_compute; reflexivity. Qed.

(** C7 (as amended): for the input pair [customer at Friday 17:00, agent at
    the following Monday 09:00] the pairer yields an Evaluation without a
    ResponseTime and then one whose ResponseTime has the duration
    2 days, 16:00:00 (64 hours) and whose weekend dates are exactly the
    Saturday and the Sunday in between. *)
Theorem friday_to_monday (friday : date) c a :
  1 ≤ friday → friday + 3 ≤ MAXORDINAL →
  weekday (mk_datetime friday 17 0 0 0) = 4 →
  from_customer c → responded_at c = mk_datetime friday 17 0 0 0 →
  from_agent a → responded_at a = mk_datetime (friday + 3) 9 0 0 0 →
  ∃ rt, Evaluate_iter [c; a] =
          ([mk_Evaulation c None; mk_Evaulation a (Some rt)], Exhausted) ∧
        duration rt = mk_timedelta 2 57600 0 ∧
        total_microseconds (duration rt) = 64 * 3600 * 1000000 ∧
        str_timedelta (duration rt) = "2 days, 16:00:00" ∧
        weekends rt = ([friday + 1; friday + 2], Exhausted).
Proof.
  intros Hlo Hhi Hfri Hc Hcat Ha Haat.
  assert (datetime_sub (mk_datetime (friday + 3) 9 0 0 0)
                       (mk_datetime friday 17 0 0 0) = mk_timedelta 2 57600 0)
    as Hdur.
  { unfold datetime_sub. apply timedelta_new_unique;
      unfold second_of_day; cbn [ordinal hour minute second microsecond]; lia. }
  exists (ResponseTime_init (responded_at c) (responded_at a)).
  split_and!.
  - unfold Evaluate_iter. cbn [iter_from].
    rewrite step_customer_opens by (auto || by left). cbn.
    by rewrite (step_agent_answers _ a c c).
  - by rewrite Hcat, Haat.
  - rewrite Hcat, Haat. cbn [ResponseTime_init duration]. by rewrite Hdur.
  - rewrite Hcat, Haat. cbn [ResponseTime_init duration]. by rewrite Hdur.
  - rewrite Hcat, Haat, weekends_candidates, Hdur
      by (unfold valid, MAXORDINAL in *; cbn; lia).
    cbn [days ordinal]. unfold weekday in Hfri; cbn [ordinal] in Hfri.
    change (2 + 1) with 3.
    rewrite (seqZ_cons friday 3), (seqZ_cons (Z.succ friday)),
      (seqZ_cons (Z.succ (Z.succ friday))) by lia.
    change (Z.pred (Z.pred (Z.pred 3))) with 0. rewrite seqZ_nil by lia.
    rewrite filter_cons_False, filter_cons_True, filter_cons_True, filter_nil.
    2-4: unfold is_weekend; Z.div_mod_to_equations; lia.
    replace (Z.succ (Z.succ friday)) with (friday + 2) by lia.
    by replace (Z.succ friday) with (friday + 1) by lia.
Qed.

Lemma friday_to_monday_witness :
  1 ≤ ymd2ord 2021 1 1 ∧ ymd2ord 2021 1 1 + 3 ≤ MAXORDINAL ∧
  weekday (mk_datetime (ymd2ord 2021 1 1) 17 0 0 0) = 4 ∧
  ∃ rt, Evaluate_iter [sample.comment sample.customer sample.friday_1700;
                       sample.comment sample.agent sample.monday_0900] =
          ([mk_Evaulation (sample.comment sample.customer sample.friday_1700) None;
            mk_Evaulation (sample.comment sample.agent sample.monday_0900) (Some rt)],
           Exhausted) ∧
        duration rt = mk_timedelta 2 57600 0 ∧
        total_microseconds (duration rt) = 64 * 3600 * 1000000 ∧
        str_timedelta (duration rt) = "2 days, 16:00:00" ∧
        weekends rt = ([ymd2ord 2021 1 1 + 1; ymd2ord 2021 1 1 + 2], Exhausted).
Proof.
  split_and!; [vm_compute; congruence..|reflexivity|].
  apply (friday_to_monday (ymd2ord 2021 1 1));
    first [reflexivity | vm_compute; congruence].
Defined.

(** C7 as stated fails: from Friday 2021-01-01 17:00 to Monday 2021-01-04
    09:00 the duration is not 63 hours, and it does not print as
    [63:00:00]. *)
Lemma friday_to_monday_counterexample :
  let rt := ResponseTime_init sample.friday_1700 sample.monday_0900 in
  weekday sample.friday_1700 = 4 ∧ weekday sample.monday_0900 = 0 ∧
  ordinal sample.monday_0900 = ordinal sample.friday_1700 + 3 ∧
  total_microseconds (duration rt) ≠ 63 * 3600 * 1000000 ∧
  str_timedelta (duration rt) ≠ "63:00:00".
Proof. cbv zeta. split_and!; vm_compute; congruence. Qed.

(** C8: for every pair of date-times, in either order, the [ResponseTime]
    is built and its [duration] is [answered_at - asked_at]: as long as the
    distance between the two on the time line, negative when [answered_at]
    is the earlier one and zero when they coincide. [weekends] never
    raises, and it yields nothing when [answered_at < asked_at]. *)
Theorem response_time_of_any_pair asked answered :
  valid asked → valid answered →
  let rt := ResponseTime_init asked answered in
  asked_at rt = asked ∧ answered_at rt = answered ∧
  duration rt = datetime_sub answered asked ∧
  total_microseconds (duration rt) = timestamp answered - timestamp asked ∧
  0 ≤ seconds (duration rt) < 86400 ∧
  0 ≤ microseconds (duration rt) < 1000000 ∧
  (ltb answered asked = true → total_microseconds (duration rt) < 0) ∧
  (answered = asked → duration rt = mk_timedelta 0 0 0) ∧
  (∃ dates, weekends rt = (dates, Exhausted)) ∧
  (ltb answered asked = true → weekends rt = ([], Exhausted)).
Proof.
  intros Ha Hb rt. subst rt. cbn [ResponseTime_init asked_at answered_at duration].
  pose proof (datetime_sub_total asked answered) as Htot.
  pose proof (timedelta_new_normal (ordinal answered - ordinal asked)
                (second_of_day answered - second_of_day asked)
                (microsecond answered - microsecond asked)) as [Hs Hus].
  fold (datetime_sub answered asked) in Hs, Hus.
  split_and!; [done..|lia|lia|lia|lia| | | |].
  - intros Hlt%ltb_timestamp; [lia|done..].
  - intros ->. unfold datetime_sub. apply timedelta_new_unique; lia.
  - rewrite weekends_candidates by done. eauto.
  - intros Hlt%ltb_timestamp; [|done..].
    rewrite weekends_candidates by done.
    rewrite seqZ_nil; [done|].
    unfold total_microseconds in Htot. lia.
Qed.

Lemma response_time_of_any_pair_witness :
  valid sample.monday_0900 ∧ valid sample.friday_1700 ∧
  let rt := ResponseTime_init sample.monday_0900 sample.friday_1700 in
  asked_at rt = sample.monday_0900 ∧ answered_at rt = sample.friday_1700 ∧
  duration rt = datetime_sub sample.friday_1700 sample.monday_0900 ∧
  total_microseconds (duration rt) =
    timestamp sample.friday_1700 - timestamp sample.monday_0900 ∧
  0 ≤ seconds (duration rt) < 86400 ∧
  0 ≤ microseconds (duration rt) < 1000000 ∧
  (ltb sample.friday_1700 sample.monday_0900 = true →
   total_microseconds (duration rt) < 0) ∧
  (sample.friday_1700 = sample.monday_0900 → duration rt = mk_timedelta 0 0 0) ∧
  (∃ dates, weekends rt = (dates, Exhausted)) ∧
  (ltb sample.friday_1700 sample.monday_0900 = true →
   weekends rt = ([], Exhausted)).
Proof.
  assert (valid sample.monday_0900) as Hm by (vm_compute; intuition congruence).
  assert (valid sample.friday_1700) as Hf by (vm_compute; intuition congruence).
  split; [exact Hm|]. split; [exact Hf|].
  exact (response_time_of_any_pair sample.monday_0900 sample.friday_1700 Hm Hf).
Defined.

End response_time_claims.

(** ** Claims about [Ticket.from_url] *)

Section ticket_claims.

(** Whatever the URL, a Ticket that [from_url] returns holds a string. *)
Lemma from_url_id_is_a_string (u : string) (t : Ticket) :
  from_url u = Ok t → ∃ digits, id t = Str digits.
Proof.
  unfold from_url.
  destruct (regex.PATH_EXPRESSION_search _) as [digits|]; [|done].
  intros [= <-]. by exists digits.
Qed.

Lemma break_digits (ds : list ascii) :
  Forall (λ c, url.is_digit c = true) ds →
  url.break (λ c, negb (url.is_digit c)) ds = (ds, None).
Proof.
  induction 1 as [|c ds Hc _ IH]; [done|]. cbn. by rewrite Hc, IH.
Qed.

Lemma strip_prefix_app (prefix rest : list ascii) :
  regex.strip_prefix prefix (prefix ++ rest) = Some rest.
Proof.
  induction prefix as [|c prefix IH]; [done|]. cbn.
  by rewrite bool_decide_true.
Qed.

Lemma list_ascii_of_string_app (s1 s2 : string) :
  String.list_ascii_of_string (s1 +:+ s2) =
    String.list_ascii_of_string s1 ++ String.list_ascii_of_string s2.
Proof. induction s1 as [|c s1 IH]; [done|]. simpl. by f_equal. Qed.

(** A path of the expected shape matches, and the group is its digits. *)
Lemma PATH_EXPRESSION_search_digits (ds : list ascii) :
  ds ≠ [] → Forall (λ c, url.is_digit c = true) ds →
  regex.PATH_EXPRESSION_search
    ("/agent/tickets/" +:+ String.string_of_list_ascii ds) =
    Some (String.string_of_list_ascii ds).
Proof.
  intros Hne Hds. unfold regex.PATH_EXPRESSION_search.
  rewrite list_ascii_of_string_app, String.list_ascii_of_string_of_list_ascii.
  rewrite strip_prefix_app, break_digits by done.
  by destruct ds.
Qed.

(** Every URL whose path has the expected shape gives a Ticket, and its
    [id] is the text of the digits. *)
Lemma from_url_matching_path (u : string) (ds : list ascii) :
  ds ≠ [] → Forall (λ c, url.is_digit c = true) ds →
  url.urlparse_path u = "/agent/tickets/" +:+ String.string_of_list_ascii ds →
  from_url u = Ok (mk_Ticket (Str (String.string_of_list_ascii ds))).
Proof.
  intros Hne Hds Hpath. unfold from_url.
  by rewrite Hpath, PATH_EXPRESSION_search_digits.
Qed.

(** C9: the URL of the usage example. The [id] of the Ticket is the string
    ["123"] that the pattern matched, not the integer 123 that the field
    declaration [id: int] announces. *)
Theorem from_url_keeps_the_matched_text :
  from_url "https://foobar.zendesk.com/agent/tickets/123" =
    Ok (mk_Ticket (Str "123")) ∧
  from_url "https://foobar.zendesk.com/agent/tickets/123" ≠
    Ok (mk_Ticket (Int 123)).
Proof. split; [vm_compute; reflexivity|vm_compute; congruence]. Qed.

End ticket_claims.

(** ** Claims about [Evaulation.as_record] *)

Section record_claims.

Implicit Types (self : Evaulation) (record : gmap string string).

Lemma built_is_init (rt : ResponseTime) :
  built rt → rt = ResponseTime_init (asked_at rt) (answered_at rt).
Proof. destruct rt as [a b d]. intros (_ & _ & Hd). cbn in *. by subst. Qed.

Lemma row_keys_apart (k : string) : k ∈ row_keys → k ∈ measurement_keys → False.
Proof.
  unfold row_keys, measurement_keys. rewrite !elem_of_cons, !elem_of_nil.
  intros [->|[->|[->|[]]]] [?|[?|[?|[]]]]; done.
Qed.

(** The keys of a row. *)
Lemma as_record_dom self :
  (∀ rt, time_taken self = Some rt → built rt) →
  ∃ record, as_record self = Ok record ∧
            dom record =
              list_to_set row_keys ∪
              (match time_taken self with
               | Some _ => list_to_set measurement_keys
               | None => ∅
               end).
Proof.
  intros Hbuilt. unfold as_record.
  destruct (time_taken self) as [rt|] eqn:Hrt.
  - destruct (Hbuilt rt eq_refl) as (Ha & Hb & _).
    rewrite (built_is_init rt) by auto.
    rewrite weekends_candidates by done. cbn.
    eexists. split; [done|].
    rewrite !dom_insert_L, dom_empty_L. set_solver.
  - eexists. split; [done|]. cbn.
    rewrite !dom_insert_L, dom_empty_L. set_solver.
Qed.

(** C10: [as_record] returns a mapping; it has the keys [email],
    [user type] and [commented at]; it has the keys [formula], [weekends]
    and [response time] if and only if a ResponseTime is attached, and
    without one those three keys are not in the mapping at all. *)
Theorem as_record_keys self :
  (∀ rt, time_taken self = Some rt → built rt) →
  ∃ record,
    as_record self = Ok record ∧
    (∀ k, k ∈ ["email"; "user type"; "commented at"] → is_Some (record !! k)) ∧
    (∀ k, k ∈ ["formula"; "weekends"; "response time"] →
          (is_Some (record !! k) ↔ is_Some (time_taken self))) ∧
    (time_taken self = None →
     ∀ k, k ∈ ["formula"; "weekends"; "response time"] → record !! k = None).
Proof.
  intros Hbuilt. destruct (as_record_dom self Hbuilt) as (record & Hrec & Hdom).
  exists record. split; [done|].
  fold row_keys measurement_keys.
  assert (∀ k, is_Some (record !! k) ↔
               k ∈ row_keys ∨ (is_Some (time_taken self) ∧ k ∈ measurement_keys))
    as Hkey.
  { intros k. rewrite <-elem_of_dom, Hdom, elem_of_union, elem_of_list_to_set.
    destruct (time_taken self) as [rt|].
    - rewrite elem_of_list_to_set.
      split; [intros [?|?]; eauto|by intros [?|[_ ?]]; [left|right]].
    - rewrite elem_of_empty. split; [by intros [?|[]]; left|].
      intros [?|[[? [=]] _]]. by left. }
  split_and!.
  - intros k Hk. apply Hkey. by left.
  - intros k Hk. rewrite Hkey. split.
    + intros [Hbase|[? _]]; [|done]. by destruct (row_keys_apart k).
    + intros ?. by right.
  - intros Hnone k Hk. apply eq_None_not_Some. rewrite Hkey, Hnone.
    intros [Hbase|[[? [=]] _]]. by destruct (row_keys_apart k).
Qed.

(** No row has a key outside the header of the report. *)
Lemma as_record_keys_in_FIELDS self record (k : string) :
  (∀ rt, time_taken self = Some rt → built rt) →
  as_record self = Ok record → is_Some (record !! k) → k ∈ FIELDS.
Proof.
  intros Hbuilt Hrec. destruct (as_record_dom self Hbuilt) as (? & Hrec' & Hdom).
  rewrite Hrec in Hrec'. injection Hrec' as <-.
  rewrite <-elem_of_dom, Hdom, elem_of_union, elem_of_list_to_set.
  change FIELDS with (row_keys ++ measurement_keys). rewrite elem_of_app.
  destruct (time_taken self); [rewrite elem_of_list_to_set|rewrite elem_of_empty];
    tauto.
Qed.

Lemma as_record_keys_witness :
  let self :=
    mk_Evaulation (sample.comment sample.agent sample.monday_0900)
      (Some (ResponseTime_init sample.friday_1700 sample.monday_0900)) in
  (∀ rt, time_taken self = Some rt → built rt) ∧
  ∃ record,
    as_record self = Ok record ∧
    (∀ k, k ∈ ["email"; "user type"; "commented at"] → is_Some (record !! k)) ∧
    (∀ k, k ∈ ["formula"; "weekends"; "response time"] →
          (is_Some (record !! k) ↔ is_Some (time_taken self))) ∧
    (time_taken self = None →
     ∀ k, k ∈ ["formula"; "weekends"; "response time"] → record !! k = None).
Proof.
  cbv zeta.
  assert (∀ rt,
            time_taken
              (mk_Evaulation (sample.comment sample.agent sample.monday_0900)
                 (Some (ResponseTime_init sample.friday_1700 sample.monday_0900)))
            = Some rt → built rt) as Hbuilt.
  { intros rt [= <-]. split_and!; [vm_compute; intuition congruence..|done]. }
  split; [exact Hbuilt|]. exact (as_record_keys _ Hbuilt).
Defined.

End record_claims.

(** ** The scenarios of the specification, run *)

Section scenarios.

(** Scenario 1: a question on Monday at 09:00 answered at 10:00. *)
Example scenario_one_hour :
  Evaluate_iter [sample.customer_0900; sample.agent_1000] =
    ([mk_Evaulation sample.customer_0900 None;
      mk_Evaulation sample.agent_1000
        (Some (mk_ResponseTime (at_ 2021 1 4 9 0) (at_ 2021 1 4 10 0)
                               (mk_timedelta 0 3600 0)))],
     Exhausted) ∧
  str_timedelta (mk_timedelta 0 3600 0) = "1:00:00" ∧
  weekends (ResponseTime_init (at_ 2021 1 4 9 0) (at_ 2021 1 4 10 0)) =
    ([], Exhausted).
Proof. split_and!; vm_compute; reflexivity. Qed.

(** Scenario 3: two questions in a row, then an answer. *)
Example scenario_two_questions :
  time_taken <$>
    yielded (Evaluate_iter [sample.customer_0900; sample.customer_0905;
                            sample.agent_0910]) =
    [None; None;
     Some (mk_ResponseTime (at_ 2021 1 4 9 0) (at_ 2021 1 4 9 10)
                           (mk_timedelta 0 600 0))].
Proof. vm_compute. reflexivity. Qed.

(** The row of the answer of scenario 2. *)
Example scenario_weekend_row :
  (λ record, (record !! "formula", record !! "weekends",
              record !! "response time", record !! "user type",
              record !! "commented at")) <$>
  match as_record
          (mk_Evaulation (sample.comment sample.agent sample.monday_0900)
             (Some (ResponseTime_init sample.friday_1700 sample.monday_0900)))
  with Ok record => Some record | Raise _ => None end =
  Some (Some "2021-01-04 09:00:00 - 2021-01-01 17:00:00 = 2 days, 16:00:00",
        Some "2021-01-02,2021-01-03",
        Some "2 days, 16:00:00", Some "agent", Some "2021-01-04 09:00:00").
Proof. vm_compute. reflexivity. Qed.

End scenarios.

(** * Further properties of the pairer *)

Section pairer_more.

Implicit Types (st : pairer_state) (r c a p l : Response).
Implicit Types (rs xs ys hist : list Response) (e : Evaulation).

Lemma iter_from_prefix st xs ys :
  yielded (iter_from st xs) `prefix_of` yielded (iter_from st (xs ++ ys)) ∧
  (∀ x, stopped (iter_from st xs) = Raised x →
        iter_from st (xs ++ ys) = iter_from st xs).
Proof.
  revert st. induction xs as [|x xs IH]; intros st; cbn.
  - split; [apply prefix_nil|done].
  - destruct (step st x) as [[e st']|]; cbn; [|done].
    destruct (IH st') as [Hpre Hstop]. split; [by apply prefix_cons|].
    intros x' Hx'. unfold yield_then. by rewrite (Hstop x' Hx').
Qed.

(** X1: the pairer works in one forward pass. The Evaluations yielded for
    the Responses seen so far are not changed by the Responses that follow:
    those of a stream begin with those of each of its prefixes, and once an
    exception has ended the iteration the rest of the stream is not
    looked at. *)
Theorem evaluations_of_a_prefix xs ys :
  yielded (Evaluate_iter xs) `prefix_of` yielded (Evaluate_iter (xs ++ ys)) ∧
  (∀ x, stopped (Evaluate_iter xs) = Raised x →
        Evaluate_iter (xs ++ ys) = Evaluate_iter xs).
Proof. apply iter_from_prefix. Qed.

Lemma iter_from_customers st p rs :
  prev st = Some p → from_customer p → Forall from_customer rs →
  iter_from st rs = ((λ r, mk_Evaulation r None) <$> rs, Exhausted).
Proof.
  intros Hp Hpc Hrs. revert st p Hp Hpc.
  induction Hrs as [|r rs Hr _ IH]; intros st p Hp Hpc; [done|].
  cbn [iter_from]. rewrite (step_customer_continues st r p) by done.
  by rewrite (IH _ r).
Qed.

(** X2: a stream in which every Response is from a customer runs to its end
    and gives one Evaluation per Response, none of them with a
    ResponseTime. *)
Theorem customers_only_never_measured rs :
  Forall from_customer rs →
  Evaluate_iter rs = ((λ r, mk_Evaulation r None) <$> rs, Exhausted).
Proof.
  intros Hrs. destruct Hrs as [|r rs Hr Hrs]; [done|].
  unfold Evaluate_iter. cbn [iter_from].
  rewrite step_customer_opens by (auto || by left).
  by rewrite (iter_from_customers _ r).
Qed.

Lemma customers_only_never_measured_witness :
  Forall from_customer [sample.customer_0900; sample.customer_0905] ∧
  Evaluate_iter [sample.customer_0900; sample.customer_0905] =
    ((λ r, mk_Evaulation r None) <$> [sample.customer_0900; sample.customer_0905],
     Exhausted).
Proof.
  assert (Forall from_customer [sample.customer_0900; sample.customer_0905])
    as H by (repeat constructor).
  split; [exact H|]. exact (customers_only_never_measured _ H).
Defined.

(** What a yielding iteration measures, and what it remembers. *)
Lemma step_measurement st r e st' :
  step st r = Ok (e, st') →
  (∀ rt, time_taken e = Some rt →
         ∃ l, last_customer_response st = Some l ∧
              rt = ResponseTime_init (responded_at l) (responded_at r)) ∧
  (∀ l, last_customer_response st' = Some l →
        last_customer_response st = Some l ∨ (l = r ∧ from_customer r)).
Proof.
  unfold step, from_customer.
  destruct (is_agent (user r)) eqn:Hr; cbn.
  - destruct (prev st) as [p|]; cbn; [|done].
    destruct (is_agent (user p)) eqn:Hp; cbn.
    + intros [= <- <-]; cbn. split; [done|auto].
    + destruct (last_customer_response st) as [l0|]; cbn; [|done].
      intros [= <- <-]; cbn. split; [|auto].
      intros rt [= <-]. eauto.
  - intros [= <- <-]; cbn. split; [done|].
    intros l. destruct (match prev st with Some p => _ | None => _ end); [|auto].
    intros [= <-]. auto.
Qed.

(** Every measurement runs from a customer Response met earlier to the
    Response of its Evaluation. [hist] are the Responses consumed before
    the state [st]. *)
Lemma iter_from_measures hist st rs j e rt :
  (∀ l, last_customer_response st = Some l →
        ∃ k, hist !! k = Some l ∧ from_customer l) →
  yielded (iter_from st rs) !! j = Some e →
  time_taken e = Some rt →
  rs !! j = Some (response e) ∧
  rt = ResponseTime_init (asked_at rt) (responded_at (response e)) ∧
  ∃ k c, (k < length hist + j)%nat ∧ (hist ++ rs) !! k = Some c ∧
         from_customer c ∧ asked_at rt = responded_at c.
Proof.
  revert hist st j. induction rs as [|r rs IH]; intros hist st j Hinv; cbn; [done|].
  destruct (step st r) as [[e0 st']|] eqn:Hstep; [|done].
  destruct (step_measurement _ _ _ _ Hstep) as [Hm Hl].
  apply step_yields in Hstep as (Hresp & _ & _).
  destruct j as [|j']; cbn.
  - intros [= <-] Hrt. destruct (Hm rt Hrt) as (l & Hlcr & ->).
    destruct (Hinv l Hlcr) as (k & Hk & Hlc).
    rewrite Hresp. split_and!; [done..|].
    exists k, l. split_and!; [|by apply lookup_app_l_Some|done..].
    apply lookup_lt_Some in Hk. lia.
  - intros He Hrt.
    destruct (IH (hist ++ [r]) st' j') as (Hj & Hinit & k & c & Hk & Hc & Hcc & Hasked);
      [|done..|].
    { intros l Hl'. destruct (Hl l Hl') as [Hold|[-> Hrc]].
      - destruct (Hinv l Hold) as (k & Hk & Hlc).
        exists k. split; [by apply lookup_app_l_Some|done].
      - exists (length hist). split; [|done]. by apply list_lookup_middle. }
    split_and!; [done..|]. exists k, c.
    rewrite length_app in Hk. cbn in Hk.
    rewrite <-app_assoc in Hc. split_and!; [lia|done..].
Qed.



(** X4: when the Responses are in ascending order of time (the first
    assumption of [Evaluate.__init__]), no measured duration is negative. *)
Theorem ascending_stream_durations_not_negative rs j e rt :
  ascending rs →
  Forall (λ r, valid (responded_at r)) rs →
  yielded (Evaluate_iter rs) !! j = Some e →
  time_taken e = Some rt →
  0 ≤ total_microseconds (duration rt) ∧ 0 ≤ days (duration rt).
Proof.
  intros Hasc Hvalid He Hrt.
  destruct (iter_from_measures [] initial_state rs j e rt)
    as (Hj & Hinit & k & c & Hk & Hc & Hcc & Hasked); [done..|].
  cbn in Hk, Hc. rewrite Forall_forall in Hvalid.
  assert (valid (responded_at c)) as Hvc
    by (apply Hvalid; by eapply list_elem_of_lookup_2).
  assert (valid (responded_at (response e))) as Hve
    by (apply Hvalid; by eapply list_elem_of_lookup_2).
  pose proof (Hasc k j c (response e) ltac:(lia) Hc Hj) as Hle.
  apply leb_timestamp in Hle; [|done..].
  rewrite Hinit, Hasked. cbn [ResponseTime_init duration].
  pose proof (datetime_sub_total (responded_at c) (responded_at (response e))) as Htot.
  pose proof (timedelta_new_normal
                (ordinal (responded_at (response e)) - ordinal (responded_at c))
                (second_of_day (responded_at (response e)) - second_of_day (responded_at c))
                (microsecond (responded_at (response e)) - microsecond (responded_at c)))
    as [Hs Hus].
  fold (datetime_sub (responded_at (response e)) (responded_at c)) in Hs, Hus.
  split; [lia|]. unfold total_microseconds in Htot. lia.
Qed.

End pairer_more.

Section pairer_more_witnesses.

Lemma ascending_stream_durations_not_negative_witness :
  let rs := [sample.customer_0900; sample.customer_0905; sample.agent_0910] in
  let rt := ResponseTime_init (responded_at sample.customer_0900)
                              (responded_at sample.agent_0910) in
  let e := mk_Evaulation sample.agent_0910 (Some rt) in
  ascending rs ∧
  Forall (λ r, valid (responded_at r)) rs ∧
  yielded (Evaluate_iter rs) !! 2%nat = Some e ∧
  time_taken e = Some rt ∧
  0 ≤ total_microseconds (duration rt) ∧ 0 ≤ days (duration rt).
Proof.
  cbv zeta.
  assert (ascending [sample.customer_0900; sample.customer_0905; sample.agent_0910])
    as Hasc.
  { intros i j ri rj Hij Hi Hj.
    destruct i as [|[|[|i]]], j as [|[|[|j]]]; cbn in Hi, Hj; try done; try lia;
      injection Hi as <-; injection Hj as <-; vm_compute; reflexivity. }
  assert (Forall (λ r, valid (responded_at r))
            [sample.customer_0900; sample.customer_0905; sample.agent_0910])
    as Hvalid by (repeat constructor; vm_compute; intuition congruence).
  assert (yielded (Evaluate_iter [sample.customer_0900; sample.customer_0905;
                                  sample.agent_0910]) !! 2%nat =
          Some (mk_Evaulation sample.agent_0910
                  (Some (ResponseTime_init (responded_at sample.customer_0900)
                                           (responded_at sample.agent_0910)))))
    as He by (vm_compute; reflexivity).
  split; [exact Hasc|]. split; [exact Hvalid|]. split; [exact He|].
  split; [reflexivity|].
  exact (ascending_stream_durations_not_negative _ _ _ _ Hasc Hvalid He eq_refl).
Defined.

End pairer_more_witnesses.

(** * Further properties of [ResponseTime.weekends] *)

Section weekends_more.

Implicit Types (asked answered : datetime) (d : date).

Lemma StronglySorted_filter_lt (P : Z → Prop) `{!∀ x, Decision (P x)} (l : list Z) :
  StronglySorted Z.lt l → StronglySorted Z.lt (filter P l).
Proof.
  induction 1 as [|x l Hl IH Hx]; [constructor|].
  rewrite filter_cons. destruct (decide (P x)); [|done].
  constructor; [done|]. rewrite Forall_forall in Hx |- *.
  intros y [_ Hy]%list_elem_of_filter. auto.
Qed.

Lemma StronglySorted_seqZ m n : StronglySorted Z.lt (seqZ m n).
Proof.
  remember (Z.to_nat n) as k eqn:Hk. revert m n Hk.
  induction k as [|k IH]; intros m n Hk.
  - rewrite seqZ_nil by lia. constructor.
  - rewrite seqZ_cons by lia. constructor; [apply IH; lia|].
    apply Forall_forall. intros y Hy%elem_of_seqZ. lia.
Qed.

(** X5: the dates that [weekends] yields, for any two date-times. The
    iteration never raises; a date is yielded if and only if it is a
    Saturday or a Sunday, not before the date of [asked_at], and either
    before the date of [answered_at] or that very date with a time of day
    of [answered_at] not earlier than that of [asked_at]; the dates come in
    strictly ascending order, so none comes twice. *)
Theorem weekends_yields_exactly asked answered :
  valid asked → valid answered →
  stopped (weekends (ResponseTime_init asked answered)) = Exhausted ∧
  (∀ d, d ∈ yielded (weekends (ResponseTime_init asked answered)) ↔
        is_weekend d ∧ date_of asked ≤ d ∧
        (d < date_of answered ∨
         (d = date_of answered ∧ time_of_day asked ≤ time_of_day answered))) ∧
  StronglySorted Z.lt (yielded (weekends (ResponseTime_init asked answered))).
Proof.
  intros Ha Hb. rewrite weekends_candidates by done.
  unfold yielded, stopped; cbn [fst snd].
  split; [done|]. split; [|apply StronglySorted_filter_lt, StronglySorted_seqZ].
  intros d. rewrite list_elem_of_filter, elem_of_seqZ, days_datetime_sub by done.
  unfold date_of, time_of_day. case_bool_decide; intuition lia.
Qed.

Lemma weekends_yields_exactly_witness :
  valid sample.friday_1700 ∧ valid sample.monday_0900 ∧
  stopped (weekends (ResponseTime_init sample.friday_1700 sample.monday_0900)) =
    Exhausted ∧
  (∀ d, d ∈ yielded (weekends (ResponseTime_init sample.friday_1700
                                                 sample.monday_0900)) ↔
        is_weekend d ∧ date_of sample.friday_1700 ≤ d ∧
        (d < date_of sample.monday_0900 ∨
         (d = date_of sample.monday_0900 ∧
          time_of_day sample.friday_1700 ≤ time_of_day sample.monday_0900))) ∧
  StronglySorted Z.lt
    (yielded (weekends (ResponseTime_init sample.friday_1700 sample.monday_0900))).
Proof.
  assert (valid sample.friday_1700) as Hf by (vm_compute; intuition congruence).
  assert (valid sample.monday_0900) as Hm by (vm_compute; intuition congruence).
  split; [exact Hf|]. split; [exact Hm|].
  exact (weekends_yields_exactly _ _ Hf Hm).
Defined.

End weekends_more.

(** * The rows of the report *)

Section row_facts.

Implicit Types (self : Evaulation) (record : gmap string string).

(** The three cells of a measurement, or three empty cells. *)
Lemma as_record_cells self :
  (∀ rt, time_taken self = Some rt → built rt) →
  ∃ record,
    as_record self = Ok record ∧
    dict_to_list FIELDS record =
      Return
        ([email (user (response self));
          if is_agent (user (response self)) then "agent" else "customer";
          str_datetime (responded_at (response self))] ++
         match time_taken self with
         | Some rt => [formula rt;
                       join "," (str_date <$> yielded (weekends rt));
                       str_timedelta (duration rt)]
         | None => [""; ""; ""]
         end).
Proof.
  intros Hbuilt. destruct (as_record_dom self Hbuilt) as (record & Hrec & Hdom).
  exists record. split; [done|].
  unfold dict_to_list. rewrite bool_decide_true.
  2:{ rewrite Hdom. change FIELDS with (row_keys ++ measurement_keys).
      rewrite list_to_set_app_L. apply union_mono_l.
      destruct (time_taken self); [done|apply empty_subseteq]. }
  f_equal. unfold as_record in Hrec.
  destruct (time_taken self) as [rt|] eqn:Hrt.
  - destruct (Hbuilt rt eq_refl) as (Ha & Hb & _).
    rewrite (built_is_init rt) in Hrec |- * by auto.
    rewrite weekends_candidates in Hrec |- * by done.
    cbn in Hrec. injection Hrec as <-.
    cbn. by simplify_map_eq.
  - cbn in Hrec. injection Hrec as <-. cbn. by simplify_map_eq.
Qed.

(** X6: the row that [cli] writes for an Evaluation. [DictWriter] accepts
    the mapping of [as_record] (none of its keys is outside the header) and
    the row has the six cells of the header: the e-mail address, [agent] or
    [customer], the time of the comment, and then either the formula, the
    weekend dates joined by commas and the duration, or three empty
    cells when no ResponseTime is attached. *)
Theorem row_of_an_evaluation self :
  (∀ rt, time_taken self = Some rt → built rt) →
  ∃ record row,
    as_record self = Ok record ∧
    dict_to_list FIELDS record = Return row ∧
    length row = length FIELDS ∧
    row !! 0%nat = Some (email (user (response self))) ∧
    row !! 1%nat =
      Some (if is_agent (user (response self)) then "agent" else "customer") ∧
    row !! 2%nat = Some (str_datetime (responded_at (response self))) ∧
    [row !! 3%nat; row !! 4%nat; row !! 5%nat] =
      match time_taken self with
      | Some rt => [Some (formula rt);
                    Some (join "," (str_date <$> yielded (weekends rt)));
                    Some (str_timedelta (duration rt))]
      | None => [Some ""; Some ""; Some ""]
      end.
Proof.
  intros Hbuilt. destruct (as_record_cells self Hbuilt) as (record & Hrec & Hrow).
  exists record. eexists. split; [done|]. split; [done|].
  by destruct (time_taken self).
Qed.

Lemma row_of_an_evaluation_witness :
  let self :=
    mk_Evaulation (sample.comment sample.agent sample.monday_0900)
      (Some (ResponseTime_init sample.friday_1700 sample.monday_0900)) in
  (∀ rt, time_taken self = Some rt → built rt) ∧
  ∃ record row,
    as_record self = Ok record ∧
    dict_to_list FIELDS record = Return row ∧
    length row = length FIELDS ∧
    row !! 0%nat = Some (email (user (response self))) ∧
    row !! 1%nat =
      Some (if is_agent (user (response self)) then "agent" else "customer") ∧
    row !! 2%nat = Some (str_datetime (responded_at (response self))) ∧
    [row !! 3%nat; row !! 4%nat; row !! 5%nat] =
      match time_taken self with
      | Some rt => [Some (formula rt);
                    Some (join "," (str_date <$> yielded (weekends rt)));
                    Some (str_timedelta (duration rt))]
      | None => [Some ""; Some ""; Some ""]
      end.
Proof.
  cbv zeta.
  assert (∀ rt,
            time_taken
              (mk_Evaulation (sample.comment sample.agent sample.monday_0900)
                 (Some (ResponseTime_init sample.friday_1700 sample.monday_0900)))
            = Some rt → built rt) as Hbuilt.
  { intros rt [= <-]. split_and!; [vm_compute; intuition congruence..|done]. }
  split; [exact Hbuilt|]. exact (row_of_an_evaluation _ Hbuilt).
Defined.

End row_facts.

(** * Further properties of [Ticket.from_url] *)

Section ticket_more.

Implicit Types (s ds rest : list ascii).







End ticket_more.

(** * Credentials, comments and Responses *)

Section source_facts.

Variable fromisoformat : string → option datetime.
Variable tickets_comments : gmap string string → value → stream zenpy.Comment.

Implicit Types (environ creds : gmap string string) (c : zenpy.Comment).
Implicit Types (cs before after : list zenpy.Comment) (rs : list Response).

Lemma zendesk_creds_Return environ creds :
  _zendesk_creds environ = Return creds ↔
  ∃ e t s, environ !! "ZENDESK_EMAIL" = Some e ∧
           environ !! "ZENDESK_TOKEN" = Some t ∧
           environ !! "ZENDESK_SUBDOMAIN" = Some s ∧
           creds = <["subdomain" := s]> (<["token" := t]> (<["email" := e]> ∅)).
Proof.
  unfold _zendesk_creds, environ_getitem.
  destruct (environ !! "ZENDESK_EMAIL") as [e|]; cbn;
    [destruct (environ !! "ZENDESK_TOKEN") as [t|]; cbn;
       [destruct (environ !! "ZENDESK_SUBDOMAIN") as [s|]; cbn|]|].
  - split; [intros [= <-]; eauto 10|]. by intros (? & ? & ? & [= <-] & [= <-] & [= <-] & ->).
  - split; [done|]. by intros (? & ? & ? & _ & _ & [=] & _).
  - split; [done|]. by intros (? & ? & ? & _ & [=] & _).
  - split; [done|]. by intros (? & ? & ? & [=] & _).
Qed.

(** X8: the credentials. [_zendesk_creds] returns a mapping exactly when
    the three variables are set, and the mapping then has the three keys
    [email], [token] and [subdomain] with their values and no other key;
    otherwise it raises [KeyError] for the first of [ZENDESK_EMAIL],
    [ZENDESK_TOKEN] and [ZENDESK_SUBDOMAIN] that is not set. *)
Theorem zendesk_creds_needs_the_three_variables environ :
  (∀ creds, _zendesk_creds environ = Return creds →
            creds !! "email" = environ !! "ZENDESK_EMAIL" ∧
            creds !! "token" = environ !! "ZENDESK_TOKEN" ∧
            creds !! "subdomain" = environ !! "ZENDESK_SUBDOMAIN" ∧
            dom creds = list_to_set ["email"; "token"; "subdomain"]) ∧
  ((∃ creds, _zendesk_creds environ = Return creds) ↔
   is_Some (environ !! "ZENDESK_EMAIL") ∧ is_Some (environ !! "ZENDESK_TOKEN") ∧
   is_Some (environ !! "ZENDESK_SUBDOMAIN")) ∧
  (∀ key, _zendesk_creds environ = Throw (KeyError key) ↔
          environ !! key = None ∧
          (key = "ZENDESK_EMAIL" ∨
           (key = "ZENDESK_TOKEN" ∧ is_Some (environ !! "ZENDESK_EMAIL")) ∨
           (key = "ZENDESK_SUBDOMAIN" ∧ is_Some (environ !! "ZENDESK_EMAIL") ∧
            is_Some (environ !! "ZENDESK_TOKEN")))) ∧
  (∀ x, _zendesk_creds environ = Throw x → ∃ key, x = KeyError key).
Proof.
  split_and!.
  - intros creds (e & t & s & -> & -> & -> & ->)%zendesk_creds_Return.
    split_and!; [by simplify_map_eq..|].
    rewrite !dom_insert_L, dom_empty_L. cbn.
    apply set_eq. intros k. rewrite !elem_of_union, !elem_of_singleton, elem_of_empty.
    tauto.
  - split.
    + intros (creds & (e & t & s & -> & -> & -> & _)%zendesk_creds_Return). eauto.
    + intros ([e He] & [t Ht] & [s Hs]). eexists. apply zendesk_creds_Return. eauto 10.
  - intros key. unfold _zendesk_creds, environ_getitem.
    destruct (environ !! "ZENDESK_EMAIL") as [e|] eqn:He; cbn;
      [destruct (environ !! "ZENDESK_TOKEN") as [t|] eqn:Ht; cbn;
         [destruct (environ !! "ZENDESK_SUBDOMAIN") as [s|] eqn:Hs; cbn|]|].
    all: split; [first [done|intros [= <-]; eauto 10]|].
    all: intros (Hk & [->|[[-> [? ?]]|[-> [[? ?] [? ?]]]]]); congruence.
  - intros x. unfold _zendesk_creds, environ_getitem.
    destruct (environ !! "ZENDESK_EMAIL"); cbn;
      [destruct (environ !! "ZENDESK_TOKEN"); cbn;
         [destruct (environ !! "ZENDESK_SUBDOMAIN"); cbn|]|];
      intros [= <-]; eauto.
Qed.



Lemma responses_loop_app before after stop :
  Forall (parses fromisoformat) before →
  ∃ rs, Forall2 (built_from fromisoformat) rs (filter (λ c, zenpy.public c = true) before) ∧
        responses_loop fromisoformat (before ++ after) stop =
          (rs ++ (responses_loop fromisoformat after stop).1,
           (responses_loop fromisoformat after stop).2).
Proof.
  induction 1 as [|c before Hc _ (rs & Hrs & IH)]; cbn [app responses_loop].
  - exists []. split; [constructor|]. by destruct (responses_loop _ _ _).
  - rewrite filter_cons. unfold parses in Hc.
    destruct (zenpy.public c) eqn:Hpub.
    + destruct (Hc eq_refl) as [dt Hdt]. unfold Response_init. rewrite Hdt, IH.
      rewrite decide_True by done.
      eexists (_ :: rs). split; [|done]. by constructor.
    + rewrite IH, decide_False by done. eauto.
Qed.

End source_facts.

Section responses_facts.

Variable fromisoformat : string → option datetime.
Variable tickets_comments : gmap string string → value → stream zenpy.Comment.

Implicit Types (environ creds : gmap string string) (c : zenpy.Comment).
Implicit Types (cs before after : list zenpy.Comment) (rs : list Response).

(** X10: [responses] yields the Responses of the public comments, in the
    order of the comments, and nothing for an internal note, whose stamp is
    not even parsed. When the stamp of every public comment parses, there is
    one Response per public comment, built from it, and the iteration ends
    the way the client's does. *)
Theorem responses_are_the_public_comments environ ticket creds cs stop :
  _zendesk_creds environ = Return creds →
  tickets_comments creds ticket = (cs, stop) →
  Forall (parses fromisoformat) cs →
  ∃ rs, responses fromisoformat tickets_comments environ ticket = (rs, stop) ∧
        Forall2 (built_from fromisoformat) rs
                (filter (λ c, zenpy.public c = true) cs).
Proof.
  intros Hcreds Hcs Hparse. unfold responses, _zendesk_comments.
  rewrite Hcreds, Hcs.
  destruct (responses_loop_app fromisoformat cs [] stop Hparse) as (rs & Hrs & Hloop).
  rewrite app_nil_r in Hloop. rewrite Hloop. cbn. rewrite app_nil_r. eauto.
Qed.

(** X11: a public comment whose stamp does not parse ends [responses] with
    [ValueError]: the Responses of the public comments before it have been
    yielded, and the comments after it are not looked at. *)
Theorem responses_stop_at_a_bad_stamp environ ticket creds before c after stop :
  _zendesk_creds environ = Return creds →
  tickets_comments creds ticket = (before ++ c :: after, stop) →
  Forall (parses fromisoformat) before →
  zenpy.public c = true →
  fromisoformat (chop_last (zenpy.created_at c)) = None →
  ∃ rs, responses fromisoformat tickets_comments environ ticket =
          (rs, Failed ValueError) ∧
        Forall2 (built_from fromisoformat) rs
                (filter (λ c, zenpy.public c = true) before).
Proof.
  intros Hcreds Hcs Hparse Hpub Hbad. unfold responses, _zendesk_comments.
  rewrite Hcreds, Hcs.
  destruct (responses_loop_app fromisoformat before (c :: after) stop Hparse)
    as (rs & Hrs & Hloop).
  rewrite Hloop. cbn [responses_loop]. unfold Response_init.
  rewrite Hpub, Hbad. cbn. rewrite app_nil_r. eauto.
Qed.

End responses_facts.

Section responses_witnesses.

Lemma sample_creds :
  _zendesk_creds sample_run.environ =
    Return (<["subdomain" := "foobar"]>
              (<["token" := "secret"]> (<["email" := "avery@example.com"]> ∅))).
Proof. apply zendesk_creds_Return. do 3 eexists. by split_and!. Qed.

Lemma responses_are_the_public_comments_witness :
  let creds : gmap string string :=
    <["subdomain" := "foobar"]>
      (<["token" := "secret"]> (<["email" := "avery@example.com"]> ∅)) in
  _zendesk_creds sample_run.environ = Return creds ∧
  sample_run.tickets_comments creds (Str "123") = (sample_run.comments, Done) ∧
  Forall (parses sample_run.fromisoformat) sample_run.comments ∧
  ∃ rs, responses sample_run.fromisoformat sample_run.tickets_comments
          sample_run.environ (Str "123") = (rs, Done) ∧
        Forall2 (built_from sample_run.fromisoformat) rs
                (filter (λ c, zenpy.public c = true) sample_run.comments).
Proof.
  cbv zeta.
  assert (Forall (parses sample_run.fromisoformat) sample_run.comments) as Hparse.
  { repeat constructor; intros Hpub; try discriminate Hpub; vm_compute; eauto. }
  split; [exact sample_creds|]. split; [reflexivity|]. split; [exact Hparse|].
  exact (responses_are_the_public_comments sample_run.fromisoformat
           sample_run.tickets_comments sample_run.environ (Str "123") _
           sample_run.comments Done sample_creds eq_refl Hparse).
Defined.

Lemma responses_stop_at_a_bad_stamp_witness :
  let creds : gmap string string :=
    <["subdomain" := "foobar"]>
      (<["token" := "secret"]> (<["email" := "avery@example.com"]> ∅)) in
  let bad := zenpy.mk_Comment true sample_run.avery "not a stamp" in
  let service := λ (_ : gmap string string) (_ : value),
                   ([sample_run.question] ++ bad :: [sample_run.answer], Done) in
  _zendesk_creds sample_run.environ = Return creds ∧
  service creds (Str "123") =
    ([sample_run.question] ++ bad :: [sample_run.answer], Done) ∧
  Forall (parses sample_run.fromisoformat) [sample_run.question] ∧
  zenpy.public bad = true ∧
  sample_run.fromisoformat (chop_last (zenpy.created_at bad)) = None ∧
  ∃ rs, responses sample_run.fromisoformat service sample_run.environ (Str "123") =
          (rs, Failed ValueError) ∧
        Forall2 (built_from sample_run.fromisoformat) rs
                (filter (λ c, zenpy.public c = true) [sample_run.question]).
Proof.
  cbv zeta.
  assert (Forall (parses sample_run.fromisoformat) [sample_run.question]) as Hparse.
  { repeat constructor; intros Hpub; vm_compute; eauto. }
  split; [exact sample_creds|]. split; [reflexivity|]. split; [exact Hparse|].
  split; [reflexivity|]. split; [reflexivity|].
  exact (responses_stop_at_a_bad_stamp sample_run.fromisoformat
           (λ _ _, ([sample_run.question] ++
                    zenpy.mk_Comment true sample_run.avery "not a stamp" ::
                    [sample_run.answer], Done))
           sample_run.environ (Str "123") _ [sample_run.question]
           (zenpy.mk_Comment true sample_run.avery "not a stamp")
           [sample_run.answer] Done sample_creds eq_refl Hparse eq_refl eq_refl).
Defined.

End responses_witnesses.

(** * The command [cli] *)

Section cli_facts.

Variable fromisoformat : string → option datetime.
Variable tickets_comments : gmap string string → value → stream zenpy.Comment.

Implicit Types (environ creds : gmap string string) (w : world).
Implicit Types (rs : list Response) (evs : list Evaulation).
Implicit Types (rows written : list (list string)) (stop : ending).


















End cli_facts.

Section cli_witnesses.









(** The report of the sample ticket, row by row. *)
Example sample_report :
  cli sample_run.fromisoformat sample_run.tickets_comments sample_run.environ
      sample_run.ticket_url None sample_run.nothing =
    (mk_world
       ["Evaluating https://foobar.zendesk.com/agent/tickets/123";
        "Evaluated https://foobar.zendesk.com/agent/tickets/123";
        "Generated evaluated output: 123.csv"]
       {["123.csv" :=
           [FIELDS;
            ["casey@example.com"; "customer"; "2021-01-04 09:00:00"; ""; ""; ""];
            ["avery@example.com"; "agent"; "2021-01-04 10:00:00";
             "2021-01-04 10:00:00 - 2021-01-04 09:00:00 = 1:00:00"; ""; "1:00:00"]]]},
     Done).
Proof. vm_compute. reflexivity. Qed.

End cli_witnesses.

Section cli_partial_report.

Variable fromisoformat : string → option datetime.
Variable tickets_comments : gmap string string → value → stream zenpy.Comment.

Implicit Types (environ creds : gmap string string) (w : world).
Implicit Types (rs : list Response) (stop : ending).



End cli_partial_report.

Section cli_partial_report_witness.


End cli_partial_report_witness.
